(** * CardConvert: asset discovery, conversion stages and dispatch

    A shallow embedding of [CardConvert/cards/base.py], [CardConvert/exceptions.py]
    and [CardConvert/util.py].  Python byte strings are [string], the [dict]s
    built by the crawler and carried by a card are finite maps and records
    with optional fields, effects on the file system are threaded through a
    state-and-exception monad. *)

From Stdlib Require Import ZArith Ascii String Sorted.
From stdpp Require Import gmap strings list fin_maps sorting.

Local Open Scope Z_scope.

(** ** Python byte-string primitives *)

Module Py.

(** [s[i:]] for [0 <= i]. *)
Fixpoint drop (n : nat) (s : string) : string :=
  match n, s with
  | O, _ => s
  | S _, EmptyString => EmptyString
  | S n', String _ s' => drop n' s'
  end.

(** [s[:i]] for [0 <= i]. *)
Fixpoint take (n : nat) (s : string) : string :=
  match n, s with
  | O, _ => EmptyString
  | S _, EmptyString => EmptyString
  | S n', String a s' => String a (take n' s')
  end.

(** [s[i:j]] for [0 <= i] and [0 <= j]. *)
Definition slice (i j : nat) (s : string) : string :=
  take (j - i) (drop i s).

(** [s[i]] for [0 <= i]; [None] stands for [IndexError]. *)
Fixpoint get (n : nat) (s : string) : option ascii :=
  match s, n with
  | EmptyString, _ => None
  | String a _, O => Some a
  | String _ s', S n' => get n' s'
  end.

(** [s.rfind(c)]: the highest index holding [c], [-1] when there is none. *)
Fixpoint rfind (c : ascii) (s : string) : Z :=
  match s with
  | EmptyString => -1
  | String a s' =>
      let r := rfind c s' in
      if 0 <=? r then r + 1 else if Ascii.eqb a c then 0 else -1
  end.

(** [s.startswith(c)] for a one-character [c]. *)
Definition startswith (c : ascii) (s : string) : bool :=
  match s with
  | String a _ => Ascii.eqb a c
  | EmptyString => false
  end.

(** [s.endswith(c)] for a one-character [c]. *)
Fixpoint endswith (c : ascii) (s : string) : bool :=
  match s with
  | EmptyString => false
  | String a EmptyString => Ascii.eqb a c
  | String _ s' => endswith c s'
  end.

(** Insertion into an ascending list, the comparison being the byte-wise
    lexicographic order Python uses on [str]. *)
Fixpoint insert_sorted (x : string) (l : list string) : list string :=
  match l with
  | [] => [x]
  | y :: l' => if String.leb x y then x :: l else y :: insert_sorted x l'
  end.

(** [sorted(l)] on a list of [str]. *)
Definition sorted (l : list string) : list string :=
  foldr insert_sorted [] l.

End Py.

(** ** [os.path] (posixpath) *)

Module os_path.

(** [posixpath.join(a, b)]. *)
Definition join (a b : string) : string :=
  if Py.startswith "/" b then b
  else if (String.eqb a "" || Py.endswith "/" a)%bool then a +:+ b
  else a +:+ "/" +:+ b.

(** [posixpath.join(a, *p)]. *)
Definition join_all (a : string) (p : list string) : string :=
  foldl join a p.

(** [posixpath.basename(p)]: [i = p.rfind('/') + 1; return p[i:]]. *)
Definition basename (p : string) : string :=
  Py.drop (Z.to_nat (Py.rfind "/" p + 1)) p.

(** The loop of [genericpath._splitext] that skips the leading dots of the
    file name: whether one of the characters at [filenameIndex] and the
    [fuel - 1] indices after it is not a dot. *)
Fixpoint first_non_dot (fuel filenameIndex : nat) (p : string) : bool :=
  match fuel with
  | O => false
  | S fuel' =>
      match Py.get filenameIndex p with
      | Some a => if Ascii.eqb a "." then first_non_dot fuel' (S filenameIndex) p
                  else true
      | None => false
      end
  end.

(** [posixpath.splitext(p)]. *)
Definition splitext (p : string) : string * string :=
  let sepIndex := Py.rfind "/" p in
  let dotIndex := Py.rfind "." p in
  if (sepIndex <? dotIndex)
       && first_non_dot (Z.to_nat (dotIndex - (sepIndex + 1)))
                        (Z.to_nat (sepIndex + 1)) p
  then (Py.take (Z.to_nat dotIndex) p, Py.drop (Z.to_nat dotIndex) p)
  else (p, "").

End os_path.

(** ** The [re] module on a fragment of the pattern language

    A pattern is kept as its syntax tree; [bt] is the backtracking matcher
    (first alternative first, greedy repetition), [search], [split] and [sub]
    follow the loops of [_sre.c] in Python 2.7. *)

Module re.

Local Open Scope nat_scope.

Inductive regex : Type :=
| Eps                      (* the empty pattern *)
| Chr (c : ascii)          (* a literal character *)
| Digit                    (* \d *)
| AnyChar                  (* .  (no DOTALL) *)
| Bol                      (* ^  (no MULTILINE) *)
| Eol                      (* $  (no MULTILINE) *)
| Seq (r1 r2 : regex)
| Alt (r1 r2 : regex)      (* r1|r2 *)
| Star (r : regex).        (* r*, greedy *)

(** [r+] *)
Definition Plus (r : regex) : regex := Seq r (Star r).

Definition is_digit (a : ascii) : bool :=
  (48 <=? nat_of_ascii a) && (nat_of_ascii a <=? 57).

Definition is_newline (a : ascii) : bool := Ascii.eqb a "010".

(** [bt r pos s k]: match [r] against [s], the rest of the subject from
    offset [pos] on, and hand the offset and rest after the match to the
    continuation [k]; the first success in backtracking order wins.  A
    repetition whose body matched the empty string is not iterated again. *)
Fixpoint bt (r : regex) (pos : nat) (s : string)
    (k : nat -> string -> option nat) {struct r} : option nat :=
  match r with
  | Eps => k pos s
  | Chr c =>
      match s with
      | String a s' => if Ascii.eqb a c then k (S pos) s' else None
      | EmptyString => None
      end
  | Digit =>
      match s with
      | String a s' => if is_digit a then k (S pos) s' else None
      | EmptyString => None
      end
  | AnyChar =>
      match s with
      | String a s' => if is_newline a then None else k (S pos) s'
      | EmptyString => None
      end
  | Bol => if pos =? 0 then k pos s else None
  | Eol =>
      match s with
      | EmptyString => k pos s
      | String a EmptyString => if is_newline a then k pos s else None
      | String _ _ => None
      end
  | Seq r1 r2 => bt r1 pos s (fun pos' s' => bt r2 pos' s' k)
  | Alt r1 r2 =>
      match bt r1 pos s k with
      | Some e => Some e
      | None => bt r2 pos s k
      end
  | Star r' =>
      (fix star (fuel pos : nat) (s : string) {struct fuel} : option nat :=
         match fuel with
         | O => k pos s
         | S fuel' =>
             match bt r' pos s
                      (fun pos' s' => if pos' =? pos then k pos' s'
                                      else star fuel' pos' s') with
             | Some e => Some e
             | None => k pos s
             end
         end) (S (String.length s)) pos s
  end.

(** The end offset of a match of [r] starting at offset [pos]. *)
Definition match_at (r : regex) (pos : nat) (rest : string) : option nat :=
  bt r pos rest (fun e _ => Some e).

(** [re.match(r, s)] as a truth value. *)
Definition match_ (r : regex) (s : string) : bool :=
  bool_decide (is_Some (match_at r 0 s)).

(** [sre_search] from offset [pos], [rest] being the subject from there on:
    the first offset at which a match starts, with the offset where that
    match ends. *)
Fixpoint search_at (r : regex) (pos : nat) (rest : string) : option (nat * nat) :=
  match match_at r pos rest with
  | Some e => Some (pos, e)
  | None =>
      match rest with
      | String _ rest' => search_at r (S pos) rest'
      | EmptyString => None
      end
  end.

Definition search (r : regex) (s : string) (start : nat) : option (nat * nat) :=
  if start <=? String.length s then search_at r start (Py.drop start s) else None.

(** The loop of [pattern_split] (no [maxsplit], no groups): an empty match
    is skipped by moving one character on, the text from [last] up to a
    non-empty match is a segment. *)
Fixpoint split_loop (fuel : nat) (r : regex) (s : string) (last start : nat)
    : list string :=
  match fuel with
  | O => [Py.drop last s]
  | S fuel' =>
      match search r s start with
      | None => [Py.drop last s]
      | Some (b, e) =>
          if b =? e then
            if last =? String.length s then [Py.drop last s]
            else split_loop fuel' r s last (S e)
          else Py.slice last b s :: split_loop fuel' r s e e
      end
  end.

(** [re.split(r, s)]. *)
Definition split (r : regex) (s : string) : list string :=
  split_loop (2 + String.length s) r s 0 0.

(** The loop of [pattern_subx] (no [count]) with a replacement [repl] that
    holds no backslash: [i] is the end of the last replaced match, [n] the
    number of replacements made. *)
Fixpoint sub_loop (fuel : nat) (r : regex) (repl s : string) (i n start : nat)
    : string :=
  match fuel with
  | O => Py.drop i s
  | S fuel' =>
      match search r s start with
      | None => Py.drop i s
      | Some (b, e) =>
          let start' := if e =? b then S e else e in
          if i <? b then
            Py.slice i b s +:+ repl +:+ sub_loop fuel' r repl s e (S n) start'
          else if (i =? b) && (i =? e) && (0 <? n) then
            sub_loop fuel' r repl s i n start'
          else repl +:+ sub_loop fuel' r repl s e (S n) start'
      end
  end.

(** [re.sub(r, repl, s)]. *)
Definition sub (r : regex) (repl s : string) : string :=
  sub_loop (2 + String.length s) r repl s 0 0 0.

End re.

(** [_\d+]: an underscore followed by a run of digits. *)
Definition underscore_digits : re.regex :=
  re.Seq (re.Chr "_") (re.Plus re.Digit).

(** ** Exceptions ([CardConvert/exceptions.py]) and results *)

(** The attributes set by [CardConvertError.__init__]. *)
Record CardConvertError : Type := mkCardConvertError {
  value : string;
  return_code : Z;
  stdout : string;
  stderr : string
}.

(** The subclasses of [CardConvertError], one per stage. *)
Inductive error_class : Type :=
| MakeMediumCopyError
| MakeSmallCopyError
| MakeJpgCopyError
| MakeSmallIconError
| MakeMediumIconError
| MakeLargeIconError
| MakeAnimatedPNGError
| MakeAnimatedGIFError
| MakeMP4Error
| MakeWEBMError
| MakeCompositeError.

(** What a call can raise: an instance of one of the classes above, or one of
    the built-in exceptions of the operations the code uses. *)
Inductive exn : Type :=
| Stage (cls : error_class) (e : CardConvertError)
| KeyError (key : string)
| IndexError
| OSError (path : string)
| IOError (path : string)
| ValueError
| NotImplementedError.

(** A call either returns a value or raises. *)
Inductive result (A : Type) : Type :=
| Return (a : A)
| Raise (e : exn).

Arguments Return {A} a.
Arguments Raise {A} e.

#[global] Instance result_ret : MRet result := fun A a => Return a.
#[global] Instance result_bind : MBind result := fun A B f m =>
  match m with
  | Return a => f a
  | Raise e => Raise e
  end.

(** A loop [for x in l: acc = body(acc, x)] whose body may raise. *)
Fixpoint for_each {A B : Type} (body : B -> A -> result B) (l : list A) (acc : B)
    : result B :=
  match l with
  | [] => Return acc
  | x :: l' =>
      match body acc x with
      | Return acc' => for_each body l' acc'
      | Raise e => Raise e
      end
  end.

(** ** The files of a card

    The [dict] the crawler builds per card and a card keeps in [_info]:
    keys ['static'] and ['animated'] from the crawler, ['output_paths'] from
    [_make_output_folders], ['ff_out'] from the frame preparation of a card
    class.  [None] is a key that is not in the [dict]. *)
Record info : Type := mkInfo {
  static : option string;
  animated : option (list string);
  output_paths : option (gmap string string);
  ff_out : option (list string)
}.

(** [{}] *)
Definition empty_info : info := mkInfo None None None None.

(** [{'static': fullpath, 'animated': []}] *)
Definition new_bundle (fullpath : string) : info :=
  mkInfo (Some fullpath) (Some []) None None.

(** [d['animated'].append(fullpath)] *)
Definition append_animated (fullpath : string) (d : info) : result info :=
  match animated d with
  | Some l => Return (mkInfo (static d) (Some (l ++ [fullpath])) (output_paths d) (ff_out d))
  | None => Raise (KeyError "animated")
  end.

(** ** Directory trees and [os.walk] *)

#[warnings="-register-all"]
Inductive node : Type :=
| File (name : string)
| Dir (name : string) (entries : list node).

Definition node_name (n : node) : string :=
  match n with
  | File name => name
  | Dir name _ => name
  end.

Definition is_dir (n : node) : bool :=
  match n with
  | Dir _ _ => true
  | File _ => false
  end.

(** The directories that path names resolve to. *)
Abbreviation disk := (gmap string node).

Module os.

(** The names [os.walk] sorts into [dirs] and [nondirs], in the order
    [os.listdir] reports the entries. *)
Definition dirs (entries : list node) : list string :=
  node_name <$> filter (fun e => is_dir e = true) entries.

Definition nondirs (entries : list node) : list string :=
  node_name <$> filter (fun e => is_dir e = false) entries.

(** The top-down walk of the tree [d] found at [top]: the triple of the
    directory itself, then the walks of its sub-directories in listing
    order.  Listing something that is not a directory yields nothing. *)
Fixpoint walk_tree (top : string) (d : node) {struct d}
    : list (string * list string * list string) :=
  match d with
  | File _ => []
  | Dir _ entries =>
      (top, dirs entries, nondirs entries)
        :: flat_map (fun e => walk_tree (os_path.join top (node_name e)) e) entries
  end.

(** [os.walk(top)]; a [top] that cannot be listed yields nothing. *)
Definition walk (fs : disk) (top : string) : list (string * list string * list string) :=
  match fs !! top with
  | Some d => walk_tree top d
  | None => []
  end.

Module path.
(** [os.path.isdir(p)] *)
Definition isdir (fs : disk) (p : string) : bool :=
  match fs !! p with
  | Some d => is_dir d
  | None => false
  end.
End path.

End os.

(** ** [BasicCard.crawler] *)

(** [re.match('^\.', file_)] *)
Definition hidden (file_ : string) : bool :=
  re.match_ (re.Seq re.Bol (re.Chr ".")) file_.

(** The body of the loop over the files of a directory that is not the
    animation folder. *)
Definition crawl_static (path : string) (cards : gmap string info) (file_ : string)
    : result (gmap string info) :=
  if negb (hidden file_) then
    let fullpath := os_path.join path file_ in
    let header := (os_path.splitext file_).1 in
    if bool_decide (cards !! header = None) then
      Return (<[header := new_bundle fullpath]> cards)
    else Return cards
  else Return cards.

(** The body of the loop over the files of the animation folder. *)
Definition crawl_animated (frame_re : re.regex) (path : string)
    (cards : gmap string info) (file_ : string) : result (gmap string info) :=
  if negb (hidden file_) then
    let fullpath := os_path.join path file_ in
    let header := (os_path.splitext file_).1 in
    match re.split frame_re header with
    | [] => Raise IndexError
    | header :: _ =>
        match cards !! header with
        | Some d => d' ← append_animated fullpath d; Return (<[header := d']> cards)
        | None => Return cards
        end
    end
  else Return cards.

(** The body of the loop over the triples of [os.walk]. *)
Definition crawl_dir (frame_re : re.regex) (anim_folder : string)
    (cards : gmap string info) (entry : string * list string * list string)
    : result (gmap string info) :=
  let '(path, subdir, files) := entry in
  let animated := false in
  let basename := os_path.basename path in
  let animated := if String.eqb basename anim_folder then true else animated in
  cards ← (if negb animated then for_each (crawl_static path) (Py.sorted files) cards
           else Return cards);
  if animated then for_each (crawl_animated frame_re path) (Py.sorted files) cards
  else Return cards.

Definition crawler (fs : disk) (target_dir : string) (frame_re : re.regex)
    (anim_folder : string) : result (gmap string info) :=
  let cards : gmap string info := ∅ in
  if os.path.isdir fs target_dir then
    for_each (crawl_dir frame_re anim_folder) (os.walk fs target_dir) cards
  else Return cards.

(** The layout of the example of the specification: two static files and an
    animation folder with two frames. *)
Definition example_tree : node :=
  Dir "cards" [File "B.png"; Dir "anim" [File "A_0002.png"; File ".DS_Store"; File "A_0001.png"];
               File "A.png"].


(** ** Configuration ([CardConvert.yaml] once loaded) *)

Module Config.

(** [config['card_types'][card_class]] *)
Record card_type : Type := mkCardType {
  frame_re : re.regex;
  anim_folder : string;
  outputs : list string;
  composite : string;
  unity_folder : string
}.

Record t : Type := mk {
  card_types : gmap string card_type;
  locale : list string;
  processes : Z
}.

End Config.

(** ** Cards and the state their methods run in *)

(** The attributes set by [BasicCard.__init__]. *)
Record BasicCard : Type := mkCard {
  _config : Config.t;
  _info : info;
  name : string;
  locale : string
}.

(** What the conversion acts on: the regular files that exist, and the
    command lines handed to [subprocess.Popen] so far. *)
Record world : Type := mkWorld {
  files : gset string;
  spawned : list string
}.

Record state : Type := mkState {
  self : BasicCard;
  env : world
}.

(** A method: it runs in a state, returns or raises, and leaves a state. *)
Definition M (A : Type) : Type := state -> result A * state.

#[global] Instance M_ret : MRet M := fun A a st => (Return a, st).
#[global] Instance M_bind : MBind M := fun A B f m st =>
  match m st with
  | (Return a, st') => f a st'
  | (Raise e, st') => (Raise e, st')
  end.

#[global] Instance M_fmap : FMap M := fun A B f m st =>
  match m st with
  | (Return a, st') => (Return (f a), st')
  | (Raise e, st') => (Raise e, st')
  end.

Definition raise {A : Type} (e : exn) : M A := fun st => (Raise e, st).

(** Lifts a computation that touches no state. *)
Definition lift {A : Type} (r : result A) : M A := fun st => (r, st).

Definition get_self : M BasicCard := fun st => (Return (self st), st).

Definition set_info (i : info) : M unit := fun st =>
  (Return tt, mkState (mkCard (_config (self st)) i (name (self st)) (locale (self st))) (env st)).

(** [d[key]] on one of the keys of [_info]. *)
Definition getitem {A : Type} (field : info -> option A) (key : string) : M A :=
  fun st =>
    match field (_info (self st)) with
    | Some a => (Return a, st)
    | None => (Raise (KeyError key), st)
    end.

(** [d[key]] on a [dict] of strings. *)
Definition lookup_key {A : Type} (d : gmap string A) (key : string) : result A :=
  match d !! key with
  | Some a => Return a
  | None => Raise (KeyError key)
  end.

(** Reading a property that a card class defines and [BasicCard] leaves to
    raise [NotImplementedError]. *)
Definition property {A : Type} (p : option A) : result A :=
  match p with
  | Some a => Return a
  | None => Raise NotImplementedError
  end.

(** [l[0]] *)
Definition first {A : Type} (l : list A) : result A :=
  match l with
  | a :: _ => Return a
  | [] => Raise IndexError
  end.

(** [os.remove(path)] *)
Definition os_remove (path : string) : M unit := fun st =>
  if bool_decide (path ∈ files (env st)) then
    (Return tt, mkState (self st) (mkWorld (files (env st) ∖ {[path]}) (spawned (env st))))
  else (Raise (OSError path), st).

(** ** The command lines *)

Definition _make_medium_copy_cmd (input_ output : string) : string :=
  "convert " +:+ input_ +:+ " -filter lanczos -resize 200x303 -unsharp 1.5x1+0.7+0.02 " +:+ output.

Definition _make_small_copy_cmd (input_ output : string) : string :=
  "convert " +:+ input_ +:+ " -filter lanczos -resize 123x186 -unsharp 1.5x1+0.7+0.02 " +:+ output.

(** The one-character string holding a double quote. *)
Definition dquote : string := String (ascii_of_nat 34) EmptyString.

Definition _make_jpg_copy_cmd (input_ output : string) : string :=
  "convert " +:+ input_ +:+ " -background " +:+ dquote +:+ "#242424" +:+ dquote +:+ " -layers flatten -filter lanczos -resize 200x303 +repage -gravity south -crop 200x302+0+0 +repage -unsharp 1.5x1+0.7+0.02 -quality 85% " +:+ output.

Definition _make_small_icons_cmd (input_ output : string) : string :=
  "convert " +:+ input_ +:+ " -filter lanczos -resize 11x16 -unsharp 1.5x1+0.7+0.02 " +:+ output.

Definition _make_medium_icons_cmd (input_ output : string) : string :=
  "convert " +:+ input_ +:+ " -filter lanczos -resize 30x44 -unsharp 1.5x1+0.7+0.02 " +:+ output.

Definition _make_large_icons_cmd (input_ output : string) : string :=
  "convert " +:+ input_ +:+ " -filter lanczos -resize 40x60 -unsharp 1.5x1+0.7+0.02 " +:+ output.

Definition _make_animated_gif_cmd (input_ output : string) : string :=
  "apng2gif " +:+ input_ +:+ " " +:+ output.

Definition _make_mp4_cmd (input_ output : string) : string :=
  "ffmpeg -f image2 -framerate 11 -i " +:+ input_ +:+ " -profile:v baseline -level 3.0 -pix_fmt yuv420p " +:+ output.

Definition _make_webm_cmd (input_ output : string) : string :=
  "ffmpeg -f image2 -framerate 11 -i " +:+ input_ +:+ "  " +:+ output.

(** ** The stages of [BasicCard] *)

Section BasicCard_methods.

(** [subprocess.Popen(cmd, shell=True, ...)] followed by [communicate()]:
    what the command returns (exit status, standard output, standard error)
    and the files it leaves, given the files it finds. *)
Variable popen : string -> gset string -> (Z * string * string) * gset string.

(** [os.makedirs(path)]: whether it raised [OSError], and the files after. *)
Variable os_makedirs : string -> gset string -> bool * gset string.

(** [shutil.copy2(src, dst)]: what it raised, if anything, and the files after. *)
Variable shutil_copy2 : string -> string -> gset string -> option exn * gset string.

(** The property [card_class] of the class of [self]: the string a card
    class returns, [None] where it is the property of [BasicCard]. *)
Variable card_class : option string.

(** [try: os.makedirs(path)] with [except OSError: pass]. *)
Definition try_makedirs (path : string) : M unit := fun st =>
  let '(_, files') := os_makedirs path (files (env st)) in
  (Return tt, mkState (self st) (mkWorld files' (spawned (env st)))).

(** [shutil.copy2(src, dst)] *)
Definition copy2 (src dst : string) : M unit := fun st =>
  match shutil_copy2 src dst (files (env st)) with
  | (None, files') => (Return tt, mkState (self st) (mkWorld files' (spawned (env st))))
  | (Some e, files') => (Raise e, mkState (self st) (mkWorld files' (spawned (env st))))
  end.

Definition run_cmd (cmd : string) : M (Z * string * string) := fun st =>
  let '((return_code, stdout_value, stderr_value), files') := popen cmd (files (env st)) in
  (Return (return_code, stdout_value, stderr_value),
   mkState (self st) (mkWorld files' (spawned (env st) ++ [cmd]))).

(** [self.config['card_types'][self.card_class]] *)
Definition card_type_config : M Config.card_type :=
  me ← get_self;
  cls ← lift (property card_class);
  lift (lookup_key (Config.card_types (_config me)) cls).

Definition _get_input_output (output_type : string) : M (string * string) :=
  input_ ← getitem static "static";
  let basename := os_path.basename input_ in
  output_paths ← getitem output_paths "output_paths";
  output ← lift (lookup_key output_paths output_type);
  let output := os_path.join output basename in
  mret (input_, output).

(** [self._info['output_paths'][output] = path] *)
Definition set_output_path (output path : string) : M unit :=
  paths ← getitem output_paths "output_paths";
  me ← get_self;
  let i := _info me in
  set_info (mkInfo (static i) (animated i) (Some (<[output := path]> paths)) (ff_out i)).

(** The loop of [_make_output_folders]. *)
Fixpoint make_folders (output_dir : string) (outputs : list string) : M unit :=
  match outputs with
  | [] => mret tt
  | output :: outputs' =>
      cls ← lift (property card_class);
      me ← get_self;
      let path := os_path.join_all output_dir [cls; locale me; output] in
      _ ← try_makedirs path;
      _ ← set_output_path output path;
      make_folders output_dir outputs'
  end.

Definition _make_output_folders (output_dir : string) : M unit :=
  cfg ← card_type_config;
  let outputs := Config.outputs cfg in
  me ← get_self;
  let i := _info me in
  _ ← set_info (mkInfo (static i) (animated i) (Some ∅) (ff_out i));
  make_folders output_dir outputs.

Definition _make_medium_copy : M (Z * string * string) :=
  '(input_, output) ← _get_input_output "medium";
  let cmd := _make_medium_copy_cmd input_ output in
  '(return_code, stdout_value, stderr_value) ← run_cmd cmd;
  if bool_decide (return_code ≠ 0) then
    raise (Stage MakeMediumCopyError
             (mkCardConvertError cmd return_code stdout_value stderr_value))
  else mret (return_code, stdout_value, stderr_value).

Definition _make_small_copy : M (Z * string * string) :=
  '(input_, output) ← _get_input_output "small";
  let cmd := _make_small_copy_cmd input_ output in
  '(return_code, stdout_value, stderr_value) ← run_cmd cmd;
  if bool_decide (return_code ≠ 0) then
    raise (Stage MakeSmallCopyError
             (mkCardConvertError cmd return_code stdout_value stderr_value))
  else mret (return_code, stdout_value, stderr_value).

Definition _make_jpg_copy : M (Z * string * string) :=
  '(input_, output) ← _get_input_output "mediumj";
  let '(output, ext) := os_path.splitext output in
  let output := output +:+ ".jpg" in
  let cmd := _make_jpg_copy_cmd input_ output in
  '(return_code, stdout_value, stderr_value) ← run_cmd cmd;
  if bool_decide (return_code ≠ 0) then
    raise (Stage MakeJpgCopyError
             (mkCardConvertError cmd return_code stdout_value stderr_value))
  else mret (return_code, stdout_value, stderr_value).

Definition _make_small_icons : M (Z * string * string) :=
  '(input_, output) ← _get_input_output "icons/small";
  let cmd := _make_small_icons_cmd input_ output in
  '(return_code, stdout_value, stderr_value) ← run_cmd cmd;
  if bool_decide (return_code ≠ 0) then
    raise (Stage MakeSmallIconError
             (mkCardConvertError cmd return_code stdout_value stderr_value))
  else mret (return_code, stdout_value, stderr_value).

Definition _make_medium_icons : M (Z * string * string) :=
  '(input_, output) ← _get_input_output "icons/medium";
  let cmd := _make_medium_icons_cmd input_ output in
  '(return_code, stdout_value, stderr_value) ← run_cmd cmd;
  if bool_decide (return_code ≠ 0) then
    raise (Stage MakeMediumIconError
             (mkCardConvertError cmd return_code stdout_value stderr_value))
  else mret (return_code, stdout_value, stderr_value).

Definition _make_large_icons : M (Z * string * string) :=
  '(input_, output) ← _get_input_output "icons/large";
  let cmd := _make_large_icons_cmd input_ output in
  '(return_code, stdout_value, stderr_value) ← run_cmd cmd;
  if bool_decide (return_code ≠ 0) then
    raise (Stage MakeLargeIconError
             (mkCardConvertError cmd return_code stdout_value stderr_value))
  else mret (return_code, stdout_value, stderr_value).

Definition _make_animated_png_cmd (input_ output : string) : M string :=
  let cmd := "apngasm " +:+ output +:+ " " in
  frames ← getitem animated "animated";
  mret (foldl (fun cmd file_ => cmd +:+ file_ +:+ " ") cmd frames).

(** Returns [None] where the source falls off the end after its [print]. *)
Definition _make_animated_png : M (option (Z * string * string)) :=
  frames ← getitem animated "animated";
  if bool_decide (frames ≠ []) then
    '(input_, output) ← _get_input_output "animated";
    cmd ← _make_animated_png_cmd input_ output;
    '(return_code, stdout_value, stderr_value) ← run_cmd cmd;
    if bool_decide (return_code ≠ 0) then
      raise (Stage MakeAnimatedPNGError
               (mkCardConvertError cmd return_code stdout_value stderr_value))
    else mret (Some (return_code, stdout_value, stderr_value))
  else mret None.

Definition _make_animated_gif : M (Z * string * string) :=
  '(input_, output) ← _get_input_output "animated";
  let input_ := output in
  let '(output, ext) := os_path.splitext output in
  let output := output +:+ ".gif" in
  let cmd := _make_animated_gif_cmd input_ output in
  '(return_code, stdout_value, stderr_value) ← run_cmd cmd;
  if bool_decide (return_code ≠ 0) then
    raise (Stage MakeAnimatedGIFError
             (mkCardConvertError cmd return_code stdout_value stderr_value))
  else
    _ ← os_remove input_;
    mret (return_code, stdout_value, stderr_value).

Definition _web_format_prep (fext : string) : M (string * string) :=
  frames ← getitem ff_out "ff_out";
  input_ ← lift (first frames);
  let '(header, ext) := os_path.splitext input_ in
  cfg ← card_type_config;
  let frame_re := Config.frame_re cfg in
  let header := re.sub frame_re "_%04d" header in
  let this_input_ := header +:+ ext in
  '(input_, output) ← _get_input_output "animated";
  let '(output, ext) := os_path.splitext output in
  let output := output +:+ "." +:+ fext in
  mret (this_input_, output).

Definition _make_mp4 : M (Z * string * string) :=
  '(input_, output) ← _web_format_prep "mp4";
  let cmd := _make_mp4_cmd input_ output in
  '(return_code, stdout_value, stderr_value) ← run_cmd cmd;
  if bool_decide (return_code ≠ 0) then
    raise (Stage MakeMP4Error
             (mkCardConvertError cmd return_code stdout_value stderr_value))
  else mret (return_code, stdout_value, stderr_value).

Definition _make_webm : M (Z * string * string) :=
  '(input_, output) ← _web_format_prep "webm";
  let cmd := _make_webm_cmd input_ output in
  '(return_code, stdout_value, stderr_value) ← run_cmd cmd;
  if bool_decide (return_code ≠ 0) then
    raise (Stage MakeWEBMError
             (mkCardConvertError cmd return_code stdout_value stderr_value))
  else mret (return_code, stdout_value, stderr_value).

Definition _cp_original (output_dir : string) : M unit :=
  input_ ← getitem static "static";
  cls ← lift (property card_class);
  me ← get_self;
  let output := os_path.join_all output_dir [cls; locale me; "original"] in
  copy2 input_ output.

End BasicCard_methods.

(** ** Card classes, [process] and the dispatcher ([CardConvert/util.py]) *)

(** What a card class supplies on top of [BasicCard]. *)
Record CardClass : Type := mkCardClass {
  card_class : option string;
  create_instances : Config.t -> gmap string info -> result (list BasicCard);
  _make_copies : M unit;
  _make_animation_copies : M unit;
  _composite_animation_frames : M (Z * string * string)
}.

(** [BasicCard] itself: each of these raises [NotImplementedError]. *)
Definition BasicCard_class : CardClass := {|
  card_class := None;
  create_instances := fun _ _ => Raise NotImplementedError;
  _make_copies := raise NotImplementedError;
  _make_animation_copies := raise NotImplementedError;
  _composite_animation_frames := raise NotImplementedError
|}.

(** An object with the class that its methods are looked up in. *)
Definition instance : Type := CardClass * BasicCard.

Section dispatcher.

Variable popen : string -> gset string -> (Z * string * string) * gset string.
Variable os_makedirs : string -> gset string -> bool * gset string.
Variable shutil_copy2 : string -> string -> gset string -> option exn * gset string.

(** The classes [util.py] imports from [cards.cards], [cards.cardbacks] and
    [cards.heroes]. *)
Variables Cards CardBacks Heroes : CardClass.

Definition process (cls : CardClass) (output_dir : string) : M string :=
  _ ← _make_output_folders os_makedirs (card_class cls) output_dir;
  _ ← _cp_original shutil_copy2 (card_class cls) output_dir;
  _ ← _make_copies cls;
  _ ← _make_animation_copies cls;
  me ← get_self;
  mret ("Finished processing " +:+ name me +:+ ":" +:+ locale me).

Definition crawl_for_this_card_class (fs : disk) (cls : CardClass)
    (config : Config.t) (target_dir : string) : result (gmap string info) :=
  c ← property (card_class cls);
  cfg ← lookup_key (Config.card_types config) c;
  let frame_re := Config.frame_re cfg in
  c ← property (card_class cls);
  cfg ← lookup_key (Config.card_types config) c;
  let anim_folder := Config.anim_folder cfg in
  crawler fs target_dir frame_re anim_folder.

Definition get_card_instances (fs : disk) (card_types : list string)
    (config : Config.t) (input_path : string) : result (list instance) :=
  for_each
    (fun instances card_type =>
       let obj : option CardClass := None in
       let obj := if String.eqb card_type "cards" then Some Cards else obj in
       let obj := if String.eqb card_type "cardbacks" then Some CardBacks else obj in
       let obj := if String.eqb card_type "heroes" then Some Heroes else obj in
       match obj with
       | Some obj =>
           c ← property (card_class obj);
           cfg ← lookup_key (Config.card_types config) c;
           let path := os_path.join input_path (Config.unity_folder cfg) in
           card_dict ← crawl_for_this_card_class fs obj config path;
           new ← create_instances obj config card_dict;
           Return (instances ++ ((fun card => (obj, card)) <$> new))
       | None => Return instances
       end)
    card_types [].

Definition _execute_pool (inst : instance) (output_path : string) : M string :=
  process inst.1 output_path.

(** [pool.apply_async(_execute_pool, args=(instance, output_path))]: the
    unit runs on a copy of the instance; what it returned or raised is kept
    for [get]. *)
Definition apply_async (inst : instance) (output_path : string) (w : world)
    : result string * world :=
  let '(r, st) := _execute_pool inst output_path (mkState inst.2 w) in
  (r, env st).

(** [[pool.apply_async(...) for instance in instances]], the units taken in
    submission order. *)
Fixpoint submit (instances : list instance) (output_path : string) (w : world)
    : list (result string) * world :=
  match instances with
  | [] => ([], w)
  | inst :: instances' =>
      let '(r, w') := apply_async inst output_path w in
      let '(rs, w'') := submit instances' output_path w' in
      (r :: rs, w'')
  end.

(** [AsyncResult.get()]: the value of the unit, or its exception raised anew. *)
Definition get (p : result string) : result string := p.

(** [[p.get() for p in results]] *)
Fixpoint gather (results : list (result string)) : result (list string) :=
  match results with
  | [] => Return []
  | p :: results' =>
      v ← get p;
      vs ← gather results';
      Return (v :: vs)
  end.

(** The last three statements of [execute_pool], on the instances found. *)
Definition run_pool (instances : list instance) (output_path : string) (w : world)
    : result (list string) * world :=
  let '(results, w') := submit instances output_path w in
  let output := gather results in
  (output, w').

Definition execute_pool (fs : disk) (card_types : list string) (config : Config.t)
    (input_path output_path : string) (processes : option Z) (w : world)
    : result (list string) * world :=
  let processes :=
    match processes with
    | Some n => if bool_decide (n = 0) then Config.processes config else n
    | None => Config.processes config
    end in
  match get_card_instances fs card_types config input_path with
  | Raise e => (Raise e, w)
  | Return instances =>
      if bool_decide (processes < 1) then (Raise ValueError, w)
      else run_pool instances output_path w
  end.

(** Modelled from the spec: the concrete card classes ([cards/cards.py] and
    its siblings) are not among the sources; this one follows sections 4.2
    and 4.3: one card per bundle named by the bundle key, the six static
    variants in the order listed, the animation variants only for a card
    with frames. *)
Definition SpecCards (loc : string) : CardClass := {|
  card_class := Some "cards";
  create_instances := fun config cards_dict =>
    Return ((fun kd => mkCard config kd.2 kd.1 loc) <$> map_to_list cards_dict);
  _make_copies :=
    _ ← _make_medium_copy popen;
    _ ← _make_small_copy popen;
    _ ← _make_jpg_copy popen;
    _ ← _make_small_icons popen;
    _ ← _make_medium_icons popen;
    _ ← _make_large_icons popen;
    mret tt;
  _make_animation_copies :=
    frames ← getitem animated "animated";
    if bool_decide (frames ≠ []) then
      _ ← _make_animated_png popen;
      _ ← _make_animated_gif popen;
      _ ← _make_mp4 popen (Some "cards");
      _ ← _make_webm popen (Some "cards");
      mret tt
    else mret tt;
  _composite_animation_frames := raise NotImplementedError
|}.

End dispatcher.

(** ** The stages as one family *)

Inductive stage : Type :=
| medium_copy | small_copy | jpg_copy
| small_icons | medium_icons | large_icons
| animated_png | animated_gif | mp4 | webm.


(** The method of a stage; [Some] wraps the triple a stage returns, [None]
    is the [None] of [_make_animated_png] on a card without frames. *)
Definition run_stage
    (popen : string -> gset string -> (Z * string * string) * gset string)
    (card_class : option string) (s : stage) : M (option (Z * string * string)) :=
  match s with
  | medium_copy => Some <$> _make_medium_copy popen
  | small_copy => Some <$> _make_small_copy popen
  | jpg_copy => Some <$> _make_jpg_copy popen
  | small_icons => Some <$> _make_small_icons popen
  | medium_icons => Some <$> _make_medium_icons popen
  | large_icons => Some <$> _make_large_icons popen
  | animated_png => _make_animated_png popen
  | animated_gif => Some <$> _make_animated_gif popen
  | mp4 => Some <$> _make_mp4 popen card_class
  | webm => Some <$> _make_webm popen card_class
  end.

(** ** Vocabulary of the statements about the crawler *)

(** The key [re.split(frame_re, header)[0]] of a frame file. *)
Definition frame_key (frame_re : re.regex) (file_ : string) : string :=
  match re.split frame_re (os_path.splitext file_).1 with
  | header :: _ => header
  | [] => EmptyString
  end.

(** Every bundle holds both keys the crawler writes. *)
Definition bundles_complete (cards : gmap string info) : Prop :=
  forall k d, cards !! k = Some d -> is_Some (static d) /\ is_Some (animated d).

(** [cards'] keeps every bundle of [cards], with the same static path and
    with the frames it had as a prefix of the frames it has. *)
Definition grows (cards cards' : gmap string info) : Prop :=
  forall k d, cards !! k = Some d ->
    exists d', cards' !! k = Some d' /\ static d' = static d /\
      exists l ext, animated d = Some l /\ animated d' = Some (l ++ ext).

(** No name in the tree holds a path separator. *)
Fixpoint names_plain (d : node) : bool :=
  match d with
  | File name => bool_decide (Py.rfind "/" name = -1)
  | Dir name entries => bool_decide (Py.rfind "/" name = -1) && forallb names_plain entries
  end.

(** [p] is the static path or one of the frames of the bundle [d]. *)
Definition in_bundle (p : string) (d : info) : Prop :=
  static d = Some p \/ exists l, animated d = Some l /\ p ∈ l.

(** In every bundle of [cards], the static path satisfies [Qs] and each
    frame satisfies [Qa], both with the key of the bundle. *)
Definition paths_satisfy (Qs Qa : string -> string -> Prop) (cards : gmap string info)
    : Prop :=
  forall k d, cards !! k = Some d ->
    (forall p, static d = Some p -> Qs k p) /\
    (forall l p, animated d = Some l -> p ∈ l -> Qa k p).

(** [p] is the full path of a file that is not hidden, in one of the
    directories of [entries]. *)
Definition listed_visible (entries : list (string * list string * list string))
    (p : string) : Prop :=
  exists path subdir files_ file_,
    (path, subdir, files_) ∈ entries /\ file_ ∈ files_ /\
    hidden file_ = false /\ p = os_path.join path file_.

(** [p] is the full path of a file that is not hidden, has the base name [k]
    and is listed in a directory of [entries] other than the animation
    folder. *)
Definition listed_static (anim_folder : string)
    (entries : list (string * list string * list string)) (k p : string) : Prop :=
  exists path subdir files_ file_,
    (path, subdir, files_) ∈ entries /\
    String.eqb (os_path.basename path) anim_folder = false /\
    file_ ∈ files_ /\ hidden file_ = false /\
    (os_path.splitext file_).1 = k /\ p = os_path.join path file_.

(** [p] is the full path of a file that is not hidden, has the frame key [k]
    and is listed in an animation folder of [entries]. *)
Definition listed_frame (frame_re : re.regex) (anim_folder : string)
    (entries : list (string * list string * list string)) (k p : string) : Prop :=
  exists path subdir files_ file_,
    (path, subdir, files_) ∈ entries /\
    String.eqb (os_path.basename path) anim_folder = true /\
    file_ ∈ files_ /\ hidden file_ = false /\
    frame_key frame_re file_ = k /\ p = os_path.join path file_.



(** A tree whose listing puts the animation folder before the folder of the
    static file. *)
Definition frames_first_tree : node :=
  Dir "cards" [Dir "anim" [File "A_0001.png"]; Dir "art" [File "A.png"]].

(** The same files, the folders listed the other way round. *)
Definition static_first_tree : node :=
  Dir "cards" [Dir "art" [File "A.png"]; Dir "anim" [File "A_0001.png"]].

(** ** Vocabulary of the statements about the stages *)

(** [r] is not an instance of one of the classes of [CardConvertError]. *)
Definition not_stage_error {A : Type} (r : result A) : Prop :=
  forall cls e, r <> Raise (Stage cls e).

(** The container the animated-loop stage reads and then deletes: the output
    path of the kind [animated], when the card has what it takes to name it. *)
Definition container_of (st : state) : option string :=
  match static (_info (self st)), output_paths (_info (self st)) with
  | Some input_, Some paths =>
      match paths !! "animated" with
      | Some dir => Some (os_path.join dir (os_path.basename input_))
      | None => None
      end
  | _, _ => None
  end.

(** The command line of the animated-loop stage for a container. *)
Definition loop_command (container : string) : string :=
  _make_animated_gif_cmd container ((os_path.splitext container).1 +:+ ".gif").


(** The state after a command has run and left the files [files']. *)
Definition after_command (st : state) (cmd : string) (files' : gset string) : state :=
  mkState (self st) (mkWorld files' (spawned (env st) ++ [cmd])).

(** The statements every stage ends in: run the command, raise the error of
    the stage on a non-zero status, return the triple otherwise. *)
Definition run_checked
    (popen : string -> gset string -> (Z * string * string) * gset string)
    (cls : error_class) (cmd : string) : M (Z * string * string) :=
  '(return_code, stdout_value, stderr_value) ← run_cmd popen cmd;
  if bool_decide (return_code ≠ 0) then
    raise (Stage cls (mkCardConvertError cmd return_code stdout_value stderr_value))
  else mret (return_code, stdout_value, stderr_value).



(** ** The recipes of the specification, as argument lists *)

(** A resize to [geometry] with the filter and the unsharp mask all resize
    stages share. *)
Definition resize_recipe (geometry input_ output : string) : string :=
  String.concat " "
    ["convert"; input_; "-filter"; "lanczos"; "-resize"; geometry;
     "-unsharp"; "1.5x1+0.7+0.02"; output].

(** Flatten onto [#242424], resize to 200x303, crop to 200x302 from the
    bottom edge up, sharpen, write with quality 85%. *)
Definition jpg_recipe (input_ output : string) : string :=
  String.concat " "
    ["convert"; input_; "-background"; dquote +:+ "#242424" +:+ dquote;
     "-layers"; "flatten"; "-filter"; "lanczos"; "-resize"; "200x303"; "+repage";
     "-gravity"; "south"; "-crop"; "200x302+0+0"; "+repage";
     "-unsharp"; "1.5x1+0.7+0.02"; "-quality"; "85%"; output].

(** The output kind and the recipe of each stage that makes a static variant. *)
Definition static_variant (s : stage) : option (string * (string -> string -> string)) :=
  match s with
  | medium_copy => Some ("medium", resize_recipe "200x303")
  | small_copy => Some ("small", resize_recipe "123x186")
  | jpg_copy =>
      Some ("mediumj",
            fun input_ output => jpg_recipe input_ ((os_path.splitext output).1 +:+ ".jpg"))
  | small_icons => Some ("icons/small", resize_recipe "11x16")
  | medium_icons => Some ("icons/medium", resize_recipe "30x44")
  | large_icons => Some ("icons/large", resize_recipe "40x60")
  | _ => None
  end.

(** An encode of the frame sequence [pattern] at 11 frames a second, baseline
    profile, level 3.0, pixel format yuv420p. *)
Definition mp4_recipe (pattern output : string) : string :=
  String.concat " "
    ["ffmpeg"; "-f"; "image2"; "-framerate"; "11"; "-i"; pattern;
     "-profile:v"; "baseline"; "-level"; "3.0"; "-pix_fmt"; "yuv420p"; output].

(** An encode of the frame sequence [pattern] at 11 frames a second with no
    further option; the source leaves two blanks before the output. *)
Definition webm_recipe (pattern output : string) : string :=
  String.concat " " ["ffmpeg"; "-f"; "image2"; "-framerate"; "11"; "-i"; pattern]
    +:+ "  " +:+ output.

(** The frame pattern of a frame file: its path with the match of the frame
    pattern replaced by the placeholder. *)
Definition frame_pattern (frame_re : re.regex) (frame : string) : string :=
  re.sub frame_re "_%04d" (os_path.splitext frame).1 +:+ (os_path.splitext frame).2.

(** The web encodes read a pattern derived from the frames the crawler found
    for the card. *)
Definition web_input_from_original_frames : Prop :=
  forall (card_class : option string) (fext : string) (st : state)
         (cls : string) (cfg : Config.card_type) (frames : list string)
         (this_input_ output : string) (st' : state),
    animated (_info (self st)) = Some frames -> frames <> [] ->
    card_class = Some cls ->
    Config.card_types (_config (self st)) !! cls = Some cfg ->
    _web_format_prep card_class fext st = (Return (this_input_, output), st') ->
    exists frame, frame ∈ frames /\ this_input_ = frame_pattern (Config.frame_re cfg) frame.

(** The record of the card class [cards] in a configuration. *)
Definition example_card_type : Config.card_type :=
  Config.mkCardType underscore_digits "anim"
    ["original"; "medium"; "small"; "mediumj"; "icons/small";
     "icons/medium"; "icons/large"; "animated"]
    "bg.png" "cards".

(** A configuration with the card class [cards]. *)
Definition example_config : Config.t :=
  Config.mk {[ "cards" := example_card_type ]} ["enUS"] 2.

(** The output folders of a card of class [cards] and locale [enUS] under
    [/out], as [_make_output_folders] records them. *)
Definition example_paths : gmap string string :=
  {[ "original" := "/out/cards/enUS/original";
     "medium" := "/out/cards/enUS/medium";
     "small" := "/out/cards/enUS/small";
     "mediumj" := "/out/cards/enUS/mediumj";
     "icons/small" := "/out/cards/enUS/icons/small";
     "icons/medium" := "/out/cards/enUS/icons/medium";
     "icons/large" := "/out/cards/enUS/icons/large";
     "animated" := "/out/cards/enUS/animated" ]}.

(** A card with one frame, whose prepared frames sit in another folder under
    another name. *)
Definition example_card : BasicCard :=
  mkCard example_config
    (mkInfo (Some "/in/cards/A.png") (Some ["/in/cards/anim/A_0001.png"])
            (Some example_paths) (Some ["/tmp/animation_temp/ff_A_0001.png"]))
    "A" "enUS".

(** Commands that all exit with status zero and add no file. *)
Definition popen_ok (cmd : string) (fs : gset string) : (Z * string * string) * gset string :=
  ((0, EmptyString, EmptyString), fs).

(** ** Vocabulary of the statements about the dispatcher *)


(** Commands that exit with status zero, but for those that name the file
    [/in/cards/B.png], which exit with status one. *)
Definition popen_B_fails (cmd : string) (fs : gset string)
    : (Z * string * string) * gset string :=
  match String.index 0 "/in/cards/B.png" cmd with
  | Some _ => ((1, EmptyString, "convert: unable to open image"), fs)
  | None => ((0, EmptyString, EmptyString), fs)
  end.

(** Folders are made and files copied without error. *)
Definition makedirs_ok (path : string) (fs : gset string) : bool * gset string := (false, fs).

Definition copy2_ok (src dst : string) (fs : gset string) : option exn * gset string :=
  (None, fs).

(** A card of the class of the specification, as the crawler and the factory
    leave it. *)
Definition plain_card (key : string) : instance :=
  (SpecCards popen_B_fails "enUS",
   mkCard example_config (new_bundle ("/in/cards/" +:+ key +:+ ".png")) key "enUS").

(** The layout of the worked example, the entries listed out of order. *)
Definition layout_tree : node :=
  Dir "cards" [File "B.png"; Dir "anim" [File "A_0002.png"; File "A_0001.png"]; File "A.png"].

(** ** Vocabulary of further statements about the crawler *)

(** The order [sorted] puts file names in. *)
Definition name_le (a b : string) : Prop := String.leb a b = true.

(** [file_] is a visible file with the base name [k]. *)
Definition static_of (k : string) (file_ : string) : Prop :=
  hidden file_ = false /\ (os_path.splitext file_).1 = k.

(** [file_] is a visible file with the frame key [k]. *)
Definition frame_of (frame_re : re.regex) (k : string) (file_ : string) : Prop :=
  hidden file_ = false /\ frame_key frame_re file_ = k.

#[global] Instance static_of_dec (k file_ : string) : Decision (static_of k file_).
Proof. unfold static_of. apply _. Defined.

#[global] Instance frame_of_dec (frame_re : re.regex) (k file_ : string) :
  Decision (frame_of frame_re k file_).
Proof. unfold frame_of. apply _. Defined.

(** ** Vocabulary of further statements about a card *)

(** The card [c] with [paths] under the key ['output_paths'] of its [_info]. *)
Definition with_paths (c : BasicCard) (paths : gmap string string) : BasicCard :=
  mkCard (_config c)
         (mkInfo (static (_info c)) (animated (_info c)) (Some paths) (ff_out (_info c)))
         (name c) (locale c).

(** [os.path.join(output_dir, card_class, locale, kind)] *)
Definition folder_of (output_dir cls loc kind : string) : string :=
  os_path.join_all output_dir [cls; loc; kind].

(** The [dict] of output paths of a card class for the output kinds [outputs]. *)
Definition folders_of (output_dir cls loc : string) (outputs : list string)
    : gmap string string :=
  foldl (fun paths kind => <[kind := folder_of output_dir cls loc kind]> paths) ∅ outputs.

(** Every call of [os.makedirs] raises [OSError] and changes no file. *)
Definition makedirs_raises (path : string) (fs : gset string) : bool * gset string :=
  (true, fs).

(** A card as the crawler and the factory leave it. *)
Definition fresh_card : BasicCard :=
  mkCard example_config (new_bundle "/in/cards/A.png") "A" "enUS".

(** A card whose bundle holds no static path. *)
Definition card_without_static : BasicCard :=
  mkCard example_config (mkInfo None (Some []) None None) "A" "enUS".

(** A card with two frames and its output folders. *)
Definition two_frame_card : BasicCard :=
  mkCard example_config
    (mkInfo (Some "/in/cards/A.png")
            (Some ["/in/cards/anim/A_0001.png"; "/in/cards/anim/A_0002.png"])
            (Some example_paths) None)
    "A" "enUS".

(** A card whose prepared frame bears no frame number. *)
Definition unnumbered_card : BasicCard :=
  mkCard example_config
    (mkInfo (Some "/in/cards/A.png") (Some ["/in/cards/anim/A.png"])
            (Some example_paths) (Some ["/tmp/animation_temp/ff_A.png"]))
    "A" "enUS".

(** The instances [get_card_instances] finds for one card type. *)
Definition instances_of (Cards CardBacks Heroes : CardClass) (fs : disk)
    (config : Config.t) (input_path card_type : string) : result (list instance) :=
  get_card_instances Cards CardBacks Heroes fs [card_type] config input_path.

(** ** Paths derived from the environment and the install location *)

(** The pattern written as the string [s], for an [s] without special
    characters: its characters in sequence. *)
Fixpoint literal (s : string) : re.regex :=
  match s with
  | EmptyString => re.Eps
  | String c s' => re.Seq (re.Chr c) (literal s')
  end.

(** [not s] for the [str] or [None] that [os.getenv] returns. *)
Definition unset (s : option string) : bool :=
  match s with
  | None => true
  | Some EmptyString => true
  | Some (String _ _) => false
  end.

Section install.

(** [os.getenv(name)]. *)
Variable getenv : string -> option string.

(** [inspect.getsourcefile(inspect.currentframe())]: the path of the module
  that runs. *)
Variable src_file : string.

(** [re.split('python', src_file)[0]] *)
Definition module_folder : result string :=
first (re.split (literal "python") src_file).

Definition _get_bg_path (card_class : option string) : M string :=
cfg ← card_type_config card_class;
let bg_basename := Config.composite cfg in
let bg_folder := getenv "BACKGROUNDS_FOLDER" in
bg_folder ← (if unset bg_folder then
               module_folder ← lift module_folder;
               mret (os_path.join module_folder "backgrounds")
             else mret (default EmptyString bg_folder));
let bg_path := os_path.join bg_folder bg_basename in
mret bg_path.

Definition get_config_path : result string :=
let config_path := getenv "CARDCONVERT_CONFIG" in
if unset config_path then
  let config_name := "CardConvert.yaml" in
  module_path ← module_folder;
  Return (os_path.join_all module_path ["config"; config_name])
else Return (default EmptyString config_path).

End install.

(** The environment with no variable set. *)
Definition getenv_none (name : string) : option string := None.

(** The environment with the two folders of the program set. *)
Definition getenv_set (name : string) : option string :=
  if String.eqb name "BACKGROUNDS_FOLDER" then Some "/srv/backgrounds"
  else if String.eqb name "CARDCONVERT_CONFIG" then Some "/srv/CardConvert.yaml"
  else None.

(** A configuration that knows no card class and asks for no worker. *)
Definition bare_config : Config.t := Config.mk ∅ ["enUS"] 0.

(** A card of a configuration that has no record for its class. *)
Definition unconfigured_card : BasicCard :=
  mkCard bare_config (new_bundle "/in/cards/A.png") "A" "enUS".

(** A card whose bundle lacks the key of the frames. *)
Definition card_without_animated : BasicCard :=
  mkCard example_config (mkInfo (Some "/in/cards/A.png") None None None) "A" "enUS".

(** * Properties *)

(** ** Loops that may raise *)

Lemma for_each_app {A B : Type} (body : B -> A -> result B) (l1 l2 : list A) (acc : B) :
  for_each body (l1 ++ l2) acc = for_each body l1 acc ≫= for_each body l2.
Proof.
  revert acc. induction l1 as [|x l1 IH]; intros acc; simpl; [done|].
  destruct (body acc x); [apply IH | done].
Qed.

Lemma bind_return {A B : Type} (a : A) (f : A -> result B) : Return a ≫= f = f a.
Proof. reflexivity. Qed.

Lemma for_each_cons {A B : Type} (body : B -> A -> result B) (x : A) (l : list A) (acc : B) :
  for_each body (x :: l) acc = body acc x ≫= for_each body l.
Proof. simpl. by destruct (body acc x). Qed.

(** A property that every round of the loop re-establishes holds at its end,
    and the loop does not raise. *)
Lemma for_each_invariant {A B : Type} (P : B -> Prop) (body : B -> A -> result B)
    (l : list A) (acc : B) :
  P acc ->
  (forall acc x, x ∈ l -> P acc -> exists acc', body acc x = Return acc' /\ P acc') ->
  exists acc', for_each body l acc = Return acc' /\ P acc'.
Proof.
  revert acc. induction l as [|x l IH]; intros acc HP Hbody; simpl.
  - by exists acc.
  - destruct (Hbody acc x) as (acc1 & -> & HP1); [left | done |].
    apply IH; [done|]. intros acc2 y Hy. apply Hbody. by right.
Qed.

(** ** [sorted] keeps the elements *)

Lemma insert_sorted_perm (x : string) (l : list string) :
  Py.insert_sorted x l ≡ₚ x :: l.
Proof.
  induction l as [|y l IH]; simpl; [done|].
  destruct (String.leb x y); [done|]. rewrite IH. apply Permutation_swap.
Qed.

Lemma sorted_perm (l : list string) : Py.sorted l ≡ₚ l.
Proof.
  induction l as [|x l IH]; simpl; [done|].
  unfold Py.sorted in IH. rewrite insert_sorted_perm. by rewrite IH.
Qed.

Lemma elem_of_sorted (x : string) (l : list string) : x ∈ Py.sorted l <-> x ∈ l.
Proof. by rewrite sorted_perm. Qed.

Lemma insert_sorted_ascending (x : string) (l : list string) :
  Sorted (fun a b => String.leb a b = true) l ->
  Sorted (fun a b => String.leb a b = true) (Py.insert_sorted x l).
Proof.
  induction l as [|y l IH]; intros Hl; simpl.
  - by repeat constructor.
  - destruct (String.leb x y) eqn:E.
    + constructor; [done | by constructor].
    + assert (String.leb y x = true) as Hyx.
      { by destruct (String.leb_total x y) as [H|H]; [rewrite H in E|]. }
      apply Sorted_inv in Hl as [Hl Hhd]. constructor; [by apply IH|].
      destruct l as [|z l]; simpl; [by constructor|].
      destruct (String.leb x z); constructor; [done|].
      by apply HdRel_inv in Hhd.
Qed.

(** [sorted] returns its elements in ascending order. *)
Lemma sorted_ascending (l : list string) :
  Sorted (fun a b => String.leb a b = true) (Py.sorted l).
Proof.
  induction l as [|x l IH]; simpl; [constructor|]. by apply insert_sorted_ascending.
Qed.

(** ** [re] *)

Lemma hidden_startswith (file_ : string) : hidden file_ = Py.startswith "." file_.
Proof.
  unfold hidden, re.match_, re.match_at. destruct file_ as [|a s]; simpl; [done|].
  by destruct (Ascii.eqb a ".").
Qed.

Lemma split_loop_nonempty (fuel : nat) (r : re.regex) (s : string) (last start : nat) :
  re.split_loop fuel r s last start <> [].
Proof.
  revert last start. induction fuel as [|fuel IH]; intros last start; simpl; [done|].
  destruct (re.search r s start) as [[b e]|]; [|done].
  destruct (b =? e)%nat; [|done].
  destruct (last =? String.length s)%nat; [done | apply IH].
Qed.

Lemma split_nonempty (r : re.regex) (s : string) : re.split r s <> [].
Proof. apply split_loop_nonempty. Qed.

(** ** The crawler: what one file does to the mapping *)

Lemma grows_refl (cards : gmap string info) : bundles_complete cards -> grows cards cards.
Proof.
  intros Hc k d Hk. exists d. split; [done|]. split; [done|].
  destruct (Hc k d Hk) as [_ [l Hl]]. exists l, []. by rewrite app_nil_r.
Qed.

Lemma grows_trans (c1 c2 c3 : gmap string info) : grows c1 c2 -> grows c2 c3 -> grows c1 c3.
Proof.
  intros H12 H23 k d Hk.
  destruct (H12 k d Hk) as (d2 & Hk2 & Hs2 & l & e & Hl & Hl2).
  destruct (H23 k d2 Hk2) as (d3 & Hk3 & Hs3 & l' & e' & Hl' & Hl3).
  exists d3. split; [done|]. split; [congruence|].
  exists l, (e ++ e'). split; [done|].
  rewrite Hl3. rewrite Hl2 in Hl'. injection Hl' as <-. by rewrite app_assoc.
Qed.

Lemma crawl_static_eq (path : string) (cards : gmap string info) (file_ : string) :
  crawl_static path cards file_ =
    Return (if hidden file_ then cards
            else match cards !! (os_path.splitext file_).1 with
                 | None => <[(os_path.splitext file_).1 := new_bundle (os_path.join path file_)]> cards
                 | Some _ => cards
                 end).
Proof.
  unfold crawl_static. destruct (hidden file_); simpl; [done|].
  destruct (cards !! (os_path.splitext file_).1) eqn:E; by case_bool_decide.
Qed.

Lemma crawl_animated_eq (frame_re : re.regex) (path : string)
    (cards : gmap string info) (file_ : string) :
  bundles_complete cards ->
  crawl_animated frame_re path cards file_ =
    Return (if hidden file_ then cards
            else match cards !! frame_key frame_re file_ with
                 | Some d =>
                     <[frame_key frame_re file_ :=
                         mkInfo (static d)
                                (Some (default [] (animated d) ++ [os_path.join path file_]))
                                (output_paths d) (ff_out d)]> cards
                 | None => cards
                 end).
Proof.
  intros Hc. unfold crawl_animated, frame_key. destruct (hidden file_); simpl; [done|].
  destruct (re.split frame_re (os_path.splitext file_).1) as [|header rest] eqn:E.
  { by apply split_nonempty in E. }
  destruct (cards !! header) as [d|] eqn:Hd; [|done].
  destruct (Hc header d Hd) as [_ [l Hl]].
  unfold append_animated. rewrite Hl. done.
Qed.

Lemma crawl_static_keeps (path : string) (cards : gmap string info) (file_ : string) :
  bundles_complete cards ->
  exists cards', crawl_static path cards file_ = Return cards' /\
    bundles_complete cards' /\ grows cards cards'.
Proof.
  intros Hc. rewrite crawl_static_eq. eexists. split; [done|].
  destruct (hidden file_); [by auto using grows_refl|].
  destruct (cards !! (os_path.splitext file_).1) eqn:E; [by auto using grows_refl|].
  split.
  - intros k d. rewrite lookup_insert. case_decide.
    + intros [= <-]. split; by eexists.
    + apply Hc.
  - intros k d Hk. exists d.
    rewrite lookup_insert_ne; [|congruence].
    split; [done|]. split; [done|].
    destruct (Hc k d Hk) as [_ [l Hl]]. exists l, []. by rewrite app_nil_r.
Qed.

Lemma crawl_animated_keeps (frame_re : re.regex) (path : string)
    (cards : gmap string info) (file_ : string) :
  bundles_complete cards ->
  exists cards', crawl_animated frame_re path cards file_ = Return cards' /\
    bundles_complete cards' /\ grows cards cards' /\ dom cards' = dom cards.
Proof.
  intros Hc. rewrite crawl_animated_eq by done. eexists. split; [done|].
  destruct (hidden file_); [by auto using grows_refl|].
  destruct (cards !! frame_key frame_re file_) as [d0|] eqn:E; [|by auto using grows_refl].
  destruct (Hc _ _ E) as [Hs0 [l0 Hl0]]. rewrite Hl0. simpl.
  split; [|split].
  - intros k d. rewrite lookup_insert. case_decide.
    + intros [= <-]. simpl. split; [done | by eexists].
    + apply Hc.
  - intros k d Hk. rewrite lookup_insert. case_decide as Hkey.
    + subst k. rewrite E in Hk. injection Hk as <-.
      eexists. split; [done|]. simpl. split; [done|]. by exists l0, [os_path.join path file_].
    + exists d. split; [done|]. split; [done|].
      destruct (Hc k d Hk) as [_ [l Hl]]. exists l, []. by rewrite app_nil_r.
  - rewrite dom_insert_L. apply subseteq_union_1_L, singleton_subseteq_l.
    by apply elem_of_dom_2 in E.
Qed.
Example splitext_png : os_path.splitext "/in/anim/A_0001.png" = ("/in/anim/A_0001", ".png").
Proof. reflexivity. Qed.

Example splitext_dotfile : os_path.splitext "/in/.bashrc" = ("/in/.bashrc", "").
Proof. reflexivity. Qed.

Example splitext_dots : os_path.splitext "/in/..png" = ("/in/..png", "").
Proof. reflexivity. Qed.

Example splitext_dir_dot : os_path.splitext "/in.d/A" = ("/in.d/A", "").
Proof. reflexivity. Qed.

Example basename_ex : os_path.basename "/in/anim/A_0001.png" = "A_0001.png".
Proof. reflexivity. Qed.

Example join_ex : os_path.join_all "/out" ["cards"; "enUS"; "icons/small"] = "/out/cards/enUS/icons/small".
Proof. reflexivity. Qed.

Example sorted_ex : Py.sorted ["b"; "A_10"; "A_2"; "a"] = ["A_10"; "A_2"; "a"; "b"].
Proof. reflexivity. Qed.

Example split_frame : re.split underscore_digits "A_0001" = ["A"; ""].
Proof. reflexivity. Qed.

Example split_no_match : re.split underscore_digits "A" = ["A"].
Proof. reflexivity. Qed.

Example split_two : re.split underscore_digits "a_1b_22c" = ["a"; "b"; "c"].
Proof. reflexivity. Qed.

Example split_empty_matches : re.split (re.Star (re.Chr "x")) "axb" = ["a"; "b"].
Proof. reflexivity. Qed.

Example sub_frame : re.sub underscore_digits "_%04d" "/tmp/ff_A_0001" = "/tmp/ff_A_%04d".
Proof. reflexivity. Qed.

Example sub_empty_matches : re.sub (re.Star (re.Chr "x")) "-" "abxd" = "-a-b-d-".
Proof. reflexivity. Qed.

Example crawl_example :
  crawler {["/in/cards" := example_tree]} "/in/cards" underscore_digits "anim"
  = Return {[ "A" := mkInfo (Some "/in/cards/A.png")
                            (Some ["/in/cards/anim/A_0001.png"; "/in/cards/anim/A_0002.png"])
                            None None;
              "B" := new_bundle "/in/cards/B.png" ]}.
Proof. vm_compute. reflexivity. Qed.

(** ** The crawler: a directory and the whole walk *)

Lemma crawl_dir_keeps (frame_re : re.regex) (anim_folder : string)
    (cards : gmap string info) (entry : string * list string * list string) :
  bundles_complete cards ->
  exists cards', crawl_dir frame_re anim_folder cards entry = Return cards' /\
    bundles_complete cards' /\ grows cards cards'.
Proof.
  intros Hc. destruct entry as [[path subdir] files_]. unfold crawl_dir.
  destruct (String.eqb (os_path.basename path) anim_folder); simpl.
  - apply (for_each_invariant (fun acc => bundles_complete acc /\ grows cards acc)).
    + auto using grows_refl.
    + intros acc x _ [Hacc Hg].
      destruct (crawl_animated_keeps frame_re path acc x Hacc) as (acc' & -> & ? & ? & _).
      eauto using grows_trans.
  - destruct (for_each_invariant (fun acc => bundles_complete acc /\ grows cards acc)
                (crawl_static path) (Py.sorted files_) cards) as (acc' & -> & ? & ?).
    + auto using grows_refl.
    + intros acc x _ [Hacc Hg].
      destruct (crawl_static_keeps path acc x Hacc) as (acc' & -> & ? & ?).
      eauto using grows_trans.
    + simpl. eauto.
Qed.


Lemma bundles_complete_empty : bundles_complete ∅.
Proof. intros k d. by rewrite lookup_empty. Qed.


(** C7: for a [target_dir] that does not exist, [crawler] returns the empty
    mapping; it does not raise. *)
Theorem crawler_missing_dir (fs : disk) (target_dir : string) (frame_re : re.regex)
    (anim_folder : string) :
  fs !! target_dir = None ->
  crawler fs target_dir frame_re anim_folder = Return ∅.
Proof.
  intros Hnone. unfold crawler, os.path.isdir. by rewrite Hnone.
Qed.

Lemma crawler_missing_dir_witness :
  crawler {["/in/cards" := example_tree]} "/in/heroes" underscore_digits "anim" = Return ∅.
Proof. apply crawler_missing_dir. reflexivity. Defined.


(** ** Paths *)

Lemma append_cons (a : ascii) (p s : string) : String a p +:+ s = String a (p +:+ s).
Proof. reflexivity. Qed.

Lemma append_empty (s : string) : EmptyString +:+ s = s.
Proof. reflexivity. Qed.

Lemma rfind_lower (c : ascii) (s : string) : -1 <= Py.rfind c s.
Proof.
  induction s as [|a s IH]; simpl; [lia|].
  destruct (0 <=? Py.rfind c s) eqn:E; [lia|]. destruct (Ascii.eqb a c); lia.
Qed.

Lemma rfind_app_absent (c : ascii) (p s : string) :
  Py.rfind c s = -1 -> Py.rfind c (p +:+ s) = Py.rfind c p.
Proof.
  intros Hs. induction p as [|a p IH]; [done|].
  rewrite append_cons. simpl. by rewrite IH.
Qed.

Lemma rfind_app_sep (c : ascii) (p s : string) :
  Py.rfind c s = -1 ->
  Py.rfind c (p +:+ String c s) = Z.of_nat (String.length p).
Proof.
  intros Hs. induction p as [|a p IH].
  - rewrite append_empty. simpl. rewrite Hs. simpl. by rewrite Ascii.eqb_refl.
  - rewrite append_cons. simpl Py.rfind. rewrite IH.
    destruct (0 <=? Z.of_nat (String.length p)) eqn:E; [simpl; lia | lia].
Qed.

Lemma rfind_endswith (c : ascii) (p : string) :
  Py.endswith c p = true -> Py.rfind c p = Z.of_nat (String.length p) - 1.
Proof.
  induction p as [|a p IH]; [done|].
  destruct p as [|b p].
  - simpl. by intros ->.
  - intros Hp. change (Py.endswith c (String b p) = true) in Hp.
    cbn [Py.rfind] in *. rewrite (IH Hp).
    change (String.length (String a (String b p))) with (S (S (String.length p))).
    change (String.length (String b p)) with (S (String.length p)).
    destruct (Z.leb_spec 0 (Z.of_nat (S (String.length p)) - 1)); lia.
Qed.

Lemma drop_length_app (p s : string) : Py.drop (String.length p) (p +:+ s) = s.
Proof. induction p as [|a p IH]; [by destruct s | done]. Qed.

Lemma absent_not_first (c : ascii) (s : string) :
  Py.rfind c s = -1 -> Py.startswith c s = false.
Proof.
  destruct s as [|a s]; [done|]. simpl.
  pose proof (rfind_lower c s). destruct (0 <=? Py.rfind c s) eqn:E; [lia|].
  by destruct (Ascii.eqb a c).
Qed.

(** The last component of a joined path is the name that was joined on, for
    a name that holds no separator. *)
Lemma basename_join (path file_ : string) :
  Py.rfind "/" file_ = -1 -> os_path.basename (os_path.join path file_) = file_.
Proof.
  intros Hf. unfold os_path.join, os_path.basename.
  rewrite (absent_not_first _ _ Hf).
  destruct (String.eqb_spec path EmptyString) as [->|Hne]; simpl.
  - rewrite append_empty, Hf. done.
  - destruct (Py.endswith "/" path) eqn:He.
    + rewrite rfind_app_absent, (rfind_endswith _ _ He) by done.
      replace (Z.to_nat (Z.of_nat (String.length path) - 1 + 1)) with (String.length path) by lia.
      apply drop_length_app.
    + change (path +:+ "/" +:+ file_) with (path +:+ String "/" file_).
      rewrite rfind_app_sep by done.
      replace (Z.to_nat (Z.of_nat (String.length path) + 1)) with (S (String.length path)) by lia.
      change (S (String.length path)) with (String.length (String "/" path)).
      clear. induction path as [|a p IH]; [by destruct file_ | done].
Qed.

(** ** Trees whose names hold no separator *)

Lemma node_rect_list (P : node -> Prop) :
  (forall name, P (File name)) ->
  (forall name entries, Forall P entries -> P (Dir name entries)) ->
  forall d, P d.
Proof.
  intros Hfile Hdir. fix IH 1. intros [name|name entries]; [apply Hfile|].
  apply Hdir. induction entries as [|e entries IHentries]; constructor; [apply IH | done].
Qed.

Lemma walk_tree_files_plain (d : node) (top path : string) (subdir files_ : list string)
    (file_ : string) :
  names_plain d = true ->
  (path, subdir, files_) ∈ os.walk_tree top d ->
  file_ ∈ files_ ->
  Py.rfind "/" file_ = -1.
Proof.
  revert top. induction d as [name|name entries IH] using node_rect_list; intros top Hd Hin Hf.
  { simpl in Hin. by apply elem_of_nil in Hin. }
  simpl in Hd. apply andb_prop in Hd as [_ Hentries].
  rewrite forallb_forall in Hentries.
  simpl in Hin. apply elem_of_cons in Hin as [Heq|Hin].
  - injection Heq as -> -> ->. unfold os.nondirs in Hf.
    apply list_elem_of_fmap in Hf as (e & -> & He).
    apply list_elem_of_filter in He as [Hfile He].
    apply list_elem_of_In, Hentries in He.
    destruct e; [|done]. simpl in He. by apply bool_decide_eq_true in He.
  - apply list_elem_of_In, in_flat_map in Hin as (e & He & Hin).
    rewrite Forall_forall in IH.
    eapply (IH e); [by apply list_elem_of_In | by apply Hentries | by apply list_elem_of_In, Hin | done].
Qed.

(** ** Where the paths of a bundle come from *)

Section sources.

Variables Qs Qa : string -> string -> Prop.

Lemma crawl_static_sources (path : string) (cards : gmap string info) (file_ : string) :
  (hidden file_ = false -> Qs (os_path.splitext file_).1 (os_path.join path file_)) ->
  bundles_complete cards /\ paths_satisfy Qs Qa cards ->
  exists cards', crawl_static path cards file_ = Return cards' /\
    bundles_complete cards' /\ paths_satisfy Qs Qa cards'.
Proof.
  intros HQ [Hc Hp].
  destruct (crawl_static_keeps path cards file_ Hc) as (cards' & Heq & Hc' & _).
  exists cards'. split; [done|]. split; [done|].
  rewrite crawl_static_eq in Heq. injection Heq as <-.
  destruct (hidden file_); [done|].
  destruct (cards !! (os_path.splitext file_).1) eqn:E; [done|].
  intros k d. rewrite lookup_insert. case_decide as Hk.
  - intros [= <-]. subst k. simpl. split.
    + intros p [= <-]. by apply HQ.
    + intros l p [= <-] Hin. by apply elem_of_nil in Hin.
  - apply Hp.
Qed.

Lemma crawl_animated_sources (frame_re : re.regex) (path : string)
    (cards : gmap string info) (file_ : string) :
  (hidden file_ = false -> Qa (frame_key frame_re file_) (os_path.join path file_)) ->
  bundles_complete cards /\ paths_satisfy Qs Qa cards ->
  exists cards', crawl_animated frame_re path cards file_ = Return cards' /\
    bundles_complete cards' /\ paths_satisfy Qs Qa cards'.
Proof.
  intros HQ [Hc Hp].
  destruct (crawl_animated_keeps frame_re path cards file_ Hc) as (cards' & Heq & Hc' & _).
  exists cards'. split; [done|]. split; [done|].
  rewrite crawl_animated_eq in Heq by done. injection Heq as <-.
  destruct (hidden file_); [done|].
  destruct (cards !! frame_key frame_re file_) as [d0|] eqn:E; [|done].
  destruct (Hp _ d0 E) as [Hs0 Ha0]. destruct (Hc _ d0 E) as [_ [l0 Hl0]].
  intros k d. rewrite lookup_insert. case_decide as Hk.
  - intros [= <-]. subst k. simpl. split; [done|].
    intros l p [= <-] Hin. rewrite Hl0 in Hin. simpl in Hin.
    apply elem_of_app in Hin as [Hin|Hin]; [by eapply Ha0|].
    apply list_elem_of_singleton in Hin as ->. by apply HQ.
  - apply Hp.
Qed.

Lemma crawl_dir_sources (frame_re : re.regex) (anim_folder : string)
    (cards : gmap string info) (path : string) (subdir files_ : list string) :
  (String.eqb (os_path.basename path) anim_folder = false ->
   forall file_, file_ ∈ files_ -> hidden file_ = false ->
     Qs (os_path.splitext file_).1 (os_path.join path file_)) ->
  (String.eqb (os_path.basename path) anim_folder = true ->
   forall file_, file_ ∈ files_ -> hidden file_ = false ->
     Qa (frame_key frame_re file_) (os_path.join path file_)) ->
  bundles_complete cards /\ paths_satisfy Qs Qa cards ->
  exists cards', crawl_dir frame_re anim_folder cards (path, subdir, files_) = Return cards' /\
    bundles_complete cards' /\ paths_satisfy Qs Qa cards'.
Proof.
  intros HQs HQa Hinv. unfold crawl_dir.
  destruct (String.eqb (os_path.basename path) anim_folder); simpl.
  - apply (for_each_invariant (fun acc => bundles_complete acc /\ paths_satisfy Qs Qa acc)); [done|].
    intros acc x Hx Hacc. apply crawl_animated_sources; [|done].
    apply HQa; [done|]. by apply elem_of_sorted.
  - destruct (for_each_invariant (fun acc => bundles_complete acc /\ paths_satisfy Qs Qa acc)
                (crawl_static path) (Py.sorted files_) cards) as (acc' & -> & ?); [done| |].
    + intros acc x Hx Hacc. apply crawl_static_sources; [|done].
      apply HQs; [done|]. by apply elem_of_sorted.
    + simpl. eauto.
Qed.

End sources.

(** In what a walk yields, the static path of a bundle is a visible file
    with the base name of the bundle, outside the animation folders, and
    each frame is a visible file of an animation folder whose key is that of
    the bundle. *)
Lemma crawl_walk_sources (frame_re : re.regex) (anim_folder : string)
    (entries : list (string * list string * list string)) :
  exists cards, for_each (crawl_dir frame_re anim_folder) entries ∅ = Return cards /\
    bundles_complete cards /\
    paths_satisfy (listed_static anim_folder entries)
                  (listed_frame frame_re anim_folder entries) cards.
Proof.
  apply (for_each_invariant
           (fun acc => bundles_complete acc /\
                       paths_satisfy (listed_static anim_folder entries)
                                     (listed_frame frame_re anim_folder entries) acc)).
  - split; [apply bundles_complete_empty|]. intros k d. by rewrite lookup_empty.
  - intros acc [[path subdir] files_] Hx Hacc. apply crawl_dir_sources; [| |done].
    + intros Hpath file_ Hf Hh. by exists path, subdir, files_, file_.
    + intros Hpath file_ Hf Hh. by exists path, subdir, files_, file_.
Qed.

Lemma listed_static_visible (anim_folder : string)
    (entries : list (string * list string * list string)) (k p : string) :
  listed_static anim_folder entries k p -> listed_visible entries p.
Proof.
  intros (path & subdir & files_ & file_ & ? & _ & ? & ? & _ & ?).
  by exists path, subdir, files_, file_.
Qed.

Lemma listed_frame_visible (frame_re : re.regex) (anim_folder : string)
    (entries : list (string * list string * list string)) (k p : string) :
  listed_frame frame_re anim_folder entries k p -> listed_visible entries p.
Proof.
  intros (path & subdir & files_ & file_ & ? & _ & ? & ? & _ & ?).
  by exists path, subdir, files_, file_.
Qed.

(** C9: no bundle of a crawl holds a hidden file, as its static path or among
    its frames: every path of a bundle is the path of a file, listed in a
    directory of the walk, whose name does not start with a dot, and where no
    name of the tree holds a separator the last component of the path does
    not start with a dot. *)
Theorem crawler_skips_hidden (fs : disk) (target_dir : string) (frame_re : re.regex)
    (anim_folder : string) :
  exists cards, crawler fs target_dir frame_re anim_folder = Return cards /\
    forall k d p, cards !! k = Some d -> in_bundle p d ->
      listed_visible (os.walk fs target_dir) p /\
      ((forall t, fs !! target_dir = Some t -> names_plain t = true) ->
       Py.startswith "." (os_path.basename p) = false).
Proof.
  unfold crawler. destruct (os.path.isdir fs target_dir).
  - destruct (crawl_walk_sources frame_re anim_folder (os.walk fs target_dir))
      as (cards & -> & _ & Hp).
    exists cards. split; [done|]. intros k d p Hk Hin.
    assert (listed_visible (os.walk fs target_dir) p) as Hl.
    { destruct (Hp k d Hk) as [Hs Ha]. destruct Hin as [Hin|(l & Hl & Hin)].
      - eapply listed_static_visible. by apply Hs.
      - eapply listed_frame_visible. by eapply Ha. }
    split; [done|]. intros Hplain.
    destruct Hl as (path & subdir & files_ & file_ & Hentry & Hfile & Hh & ->).
    unfold os.walk in Hentry. destruct (fs !! target_dir) as [t|] eqn:Ht.
    + rewrite basename_join, <- hidden_startswith; [done|].
      by eapply walk_tree_files_plain; [apply Hplain | apply Hentry | apply Hfile].
    + by apply elem_of_nil in Hentry.
  - exists ∅. split; [done|]. intros k d p. by rewrite lookup_empty.
Qed.

(** ** Merging frames into the bundle of a static file *)

Lemma grows_has_key (k : string) (c c' : gmap string info) :
  grows c c' -> is_Some (c !! k) -> is_Some (c' !! k).
Proof. intros Hg [d Hd]. destruct (Hg k d Hd) as (d' & -> & _). by eexists. Qed.


(** A loop whose rounds only let the mapping grow reaches a property [R]
    that growth keeps, once a round on [x] establishes it from a property
    [R0] that growth keeps too. *)
Lemma for_each_reaches {A : Type} (body : gmap string info -> A -> result (gmap string info))
    (R0 R : gmap string info -> Prop) (l : list A) (x : A) (cards : gmap string info) :
  (forall acc y, bundles_complete acc ->
     exists acc', body acc y = Return acc' /\ bundles_complete acc' /\ grows acc acc') ->
  (forall c c', grows c c' -> R0 c -> R0 c') ->
  (forall c c', grows c c' -> R c -> R c') ->
  (forall acc acc', bundles_complete acc -> R0 acc -> body acc x = Return acc' -> R acc') ->
  x ∈ l -> bundles_complete cards -> R0 cards ->
  exists cards', for_each body l cards = Return cards' /\
    bundles_complete cards' /\ grows cards cards' /\ R cards'.
Proof.
  intros Hkeeps HR0 HR Hx Hin Hc H0.
  assert (forall l' c, bundles_complete c ->
            exists c', for_each body l' c = Return c' /\ bundles_complete c' /\ grows c c')
    as Hloop.
  { intros l' c Hcc.
    destruct (for_each_invariant (fun acc => bundles_complete acc /\ grows c acc) body l' c)
      as (c' & ? & ? & ?); [by auto using grows_refl | | by eauto].
    intros acc y _ [Hacc Hg]. destruct (Hkeeps acc y Hacc) as (acc' & ? & ? & ?).
    eauto using grows_trans. }
  apply list_elem_of_split in Hin as (l1 & l2 & ->).
  rewrite for_each_app.
  destruct (Hloop l1 cards Hc) as (c1 & -> & Hc1 & Hg1). simpl.
  destruct (Hkeeps c1 x Hc1) as (c2 & Hstep & Hc2 & Hg2). rewrite Hstep.
  destruct (Hloop l2 c2 Hc2) as (c3 & -> & Hc3 & Hg3).
  exists c3. split; [done|]. split; [done|]. split; [by eauto using grows_trans|].
  eapply HR; [exact Hg3|]. eapply Hx; [exact Hc1 | by eapply HR0 | done].
Qed.

(** A visible file of a directory that is not the animation folder leaves a
    bundle under its base name. *)
Lemma crawl_dir_static_key (frame_re : re.regex) (anim_folder : string)
    (cards : gmap string info) (path : string) (subdir files_ : list string)
    (file_ : string) :
  String.eqb (os_path.basename path) anim_folder = false ->
  file_ ∈ files_ -> hidden file_ = false ->
  bundles_complete cards ->
  exists cards', crawl_dir frame_re anim_folder cards (path, subdir, files_) = Return cards' /\
    bundles_complete cards' /\ grows cards cards' /\
    is_Some (cards' !! (os_path.splitext file_).1).
Proof.
  intros Hpath Hin Hvis Hc. unfold crawl_dir. rewrite Hpath. simpl.
  destruct (for_each_reaches (crawl_static path) (fun _ => True)
              (fun c => is_Some (c !! (os_path.splitext file_).1))
              (Py.sorted files_) file_ cards) as (cards' & -> & ? & ? & ?); try done.
  - intros acc y Hacc. by apply crawl_static_keeps.
  - intros c c'. apply grows_has_key.
  - intros acc acc' _ _. rewrite crawl_static_eq, Hvis. intros [= <-].
    destruct (acc !! (os_path.splitext file_).1) eqn:E; [by rewrite E|].
    by rewrite lookup_insert_eq.
  - by apply elem_of_sorted.
  - simpl. eauto.
Qed.


Lemma walk_isdir (fs : disk) (target_dir : string) (entry : string * list string * list string) :
  entry ∈ os.walk fs target_dir -> os.path.isdir fs target_dir = true.
Proof.
  unfold os.walk, os.path.isdir. destruct (fs !! target_dir) as [[name|name entries]|].
  - intros Hin. by apply elem_of_nil in Hin.
  - done.
  - intros Hin. by apply elem_of_nil in Hin.
Qed.



Example crawl_frames_first :
  crawler {["/in/cards" := frames_first_tree]} "/in/cards" underscore_digits "anim"
  = Return {[ "A" := new_bundle "/in/cards/art/A.png" ]}.
Proof. vm_compute. reflexivity. Qed.

Example crawl_static_first :
  crawler {["/in/cards" := static_first_tree]} "/in/cards" underscore_digits "anim"
  = Return {[ "A" := mkInfo (Some "/in/cards/art/A.png") (Some ["/in/cards/anim/A_0001.png"])
                            None None ]}.
Proof. vm_compute. reflexivity. Qed.


(** ** The layout of the worked example *)

Lemma crawl_animated_hit (frame_re : re.regex) (path : string) (cards : gmap string info)
    (file_ : string) (d : info) (l : list string) :
  hidden file_ = false ->
  cards !! frame_key frame_re file_ = Some d ->
  animated d = Some l ->
  crawl_animated frame_re path cards file_ =
    Return (<[frame_key frame_re file_ :=
                mkInfo (static d) (Some (l ++ [os_path.join path file_]))
                       (output_paths d) (ff_out d)]> cards).
Proof.
  intros Hvis Hd Hl. unfold crawl_animated, frame_key in *. rewrite Hvis. simpl.
  destruct (re.split frame_re (os_path.splitext file_).1) as [|header rest] eqn:E.
  { by apply split_nonempty in E. }
  rewrite Hd. unfold append_animated. by rewrite Hl.
Qed.

(** Only the sub-directories of a listing contribute to the walk below it. *)
Lemma walk_below_dirs (top : string) (entries : list node) :
  flat_map (fun e => os.walk_tree (os_path.join top (node_name e)) e) entries =
  flat_map (fun e => os.walk_tree (os_path.join top (node_name e)) e)
           (filter (fun e => is_dir e = true) entries).
Proof.
  induction entries as [|e entries IH]; [done|].
  destruct e as [name|name sub].
  - rewrite filter_cons_False by done. simpl. exact IH.
  - rewrite filter_cons_True by done. simpl. by rewrite IH.
Qed.

Lemma sorted_pair (x y : string) (l : list string) :
  l ≡ₚ [x; y] -> Py.sorted [x; y] = [x; y] -> Py.sorted [y; x] = [x; y] ->
  Py.sorted l = [x; y].
Proof.
  intros Hl Hxy Hyx. symmetry in Hl.
  by apply Permutation_length_2_inv in Hl as [->| ->].
Qed.

(** C6: a directory holding the static files [A.png] and [B.png] and an
    animation folder holding the frames [A_0001.png] and [A_0002.png], in
    whatever order the entries are listed, is crawled into exactly two
    bundles: [A] with the static path of [A.png] and the two frames in
    ascending order of their names, and [B] with the static path of [B.png]
    and no frame.  The key of each frame is the first segment of its name
    without extension, split on the frame pattern. *)
Theorem crawler_example_layout (fs : disk) (target_dir name anim_folder : string)
    (frame_re : re.regex) (entries frames : list node) :
  fs !! target_dir = Some (Dir name entries) ->
  entries ≡ₚ [File "A.png"; File "B.png"; Dir anim_folder frames] ->
  frames ≡ₚ [File "A_0001.png"; File "A_0002.png"] ->
  String.eqb (os_path.basename target_dir) anim_folder = false ->
  Py.rfind "/" anim_folder = -1 ->
  frame_key frame_re "A_0001.png" = "A" ->
  frame_key frame_re "A_0002.png" = "A" ->
  exists cards,
    crawler fs target_dir frame_re anim_folder = Return cards /\
    cards =
      {[ "A" := mkInfo (Some (os_path.join target_dir "A.png"))
                       (Some [os_path.join (os_path.join target_dir anim_folder) "A_0001.png";
                              os_path.join (os_path.join target_dir anim_folder) "A_0002.png"])
                       None None;
         "B" := mkInfo (Some (os_path.join target_dir "B.png")) (Some []) None None ]} /\
    forall k d l p, cards !! k = Some d -> animated d = Some l -> p ∈ l ->
      exists path file_,
        p = os_path.join path file_ /\
        hd_error (re.split frame_re (os_path.splitext file_).1) = Some k.
Proof.
  intros Hfs Hentries Hframes Hroot Hanim Hk1 Hk2.
  destruct (crawl_walk_sources frame_re anim_folder (os.walk fs target_dir))
    as (cards & Hret & _ & Hp).
  exists cards. unfold crawler, os.path.isdir. rewrite Hfs. simpl.
  split; [done|]. split.
  - unfold os.walk in Hret. rewrite Hfs in Hret. simpl in Hret.
    rewrite walk_below_dirs in Hret.
    assert (filter (fun e => is_dir e = true) entries = [Dir anim_folder frames]) as Hdirs.
    { apply Permutation_singleton_r. by rewrite Hentries. }
    rewrite Hdirs in Hret. simpl in Hret. rewrite app_nil_r in Hret.
    assert (flat_map (fun e => os.walk_tree
                (os_path.join (os_path.join target_dir anim_folder) (node_name e)) e) frames
            = []) as Hleaves.
    { pose proof Hframes as Hf. symmetry in Hf.
      by apply Permutation_length_2_inv in Hf as [->| ->]. }
    rewrite Hleaves in Hret. clear Hleaves.
    assert (Py.sorted (os.nondirs entries) = ["A.png"; "B.png"]) as HsortS.
    { apply sorted_pair; [|done..]. unfold os.nondirs. by rewrite Hentries. }
    assert (Py.sorted (os.nondirs frames) = ["A_0001.png"; "A_0002.png"]) as HsortA.
    { apply sorted_pair; [|done..]. unfold os.nondirs. by rewrite Hframes. }
    unfold crawl_dir in Hret.
    rewrite Hroot, HsortS, HsortA, basename_join, String.eqb_refl in Hret by done.
    cbn [negb for_each] in Hret.
    rewrite !crawl_static_eq in Hret.
    change (hidden "A.png") with false in Hret.
    change (hidden "B.png") with false in Hret.
    change ((os_path.splitext "A.png").1) with "A" in Hret.
    change ((os_path.splitext "B.png").1) with "B" in Hret.
    rewrite lookup_empty, lookup_insert_ne, lookup_empty in Hret by done.
    rewrite !bind_return in Hret.
    rewrite (crawl_animated_hit _ _ _ "A_0001.png"
               (new_bundle (os_path.join target_dir "A.png")) []) in Hret;
      [|done|by rewrite Hk1, lookup_insert_ne, lookup_insert_eq|done].
    rewrite Hk1 in Hret.
    rewrite (crawl_animated_hit _ _ _ "A_0002.png"
               (mkInfo (Some (os_path.join target_dir "A.png"))
                       (Some [os_path.join (os_path.join target_dir anim_folder) "A_0001.png"])
                       None None)
               [os_path.join (os_path.join target_dir anim_folder) "A_0001.png"]) in Hret;
      [|done|by rewrite Hk2, lookup_insert_eq|done].
    rewrite Hk2 in Hret. injection Hret as <-.
    rewrite insert_insert_eq, insert_insert_ne, insert_insert_eq by done.
    done.
  - intros k d l p Hd Hl Hin. destruct (Hp k d Hd) as [_ Ha].
    destruct (Ha l p Hl Hin) as (path & subdir & files_ & file_ & _ & _ & _ & _ & Hkey & ->).
    exists path, file_. split; [done|]. unfold frame_key in Hkey.
    destruct (re.split frame_re (os_path.splitext file_).1) as [|h rest] eqn:E.
    { by apply split_nonempty in E. }
    simpl. by rewrite Hkey.
Qed.

Lemma crawler_example_layout_witness :
  exists cards,
    crawler {["/in/cards" := layout_tree]} "/in/cards" underscore_digits "anim" = Return cards /\
    cards =
      {[ "A" := mkInfo (Some (os_path.join "/in/cards" "A.png"))
                       (Some [os_path.join (os_path.join "/in/cards" "anim") "A_0001.png";
                              os_path.join (os_path.join "/in/cards" "anim") "A_0002.png"])
                       None None;
         "B" := mkInfo (Some (os_path.join "/in/cards" "B.png")) (Some []) None None ]} /\
    forall k d l p, cards !! k = Some d -> animated d = Some l -> p ∈ l ->
      exists path file_,
        p = os_path.join path file_ /\
        hd_error (re.split underscore_digits (os_path.splitext file_).1) = Some k.
Proof.
  apply (crawler_example_layout {["/in/cards" := layout_tree]} "/in/cards" "cards" "anim"
           underscore_digits
           [File "B.png"; Dir "anim" [File "A_0002.png"; File "A_0001.png"]; File "A.png"]
           [File "A_0002.png"; File "A_0001.png"]).
  - reflexivity.
  - symmetry.
    apply (Permutation_cons_append
             [File "B.png"; Dir "anim" [File "A_0002.png"; File "A_0001.png"]] (File "A.png")).
  - apply perm_swap.
  - vm_compute. reflexivity.
  - vm_compute. reflexivity.
  - vm_compute. reflexivity.
  - vm_compute. reflexivity.
Defined.

(** ** Running a stage *)

Lemma M_bind_return {A B : Type} (m : M A) (f : A -> M B) (st st' : state) (a : A) :
  m st = (Return a, st') -> (m ≫= f) st = f a st'.
Proof. intros H. unfold mbind, M_bind. by rewrite H. Qed.

Lemma M_bind_raise {A B : Type} (m : M A) (f : A -> M B) (st st' : state) (e : exn) :
  m st = (Raise e, st') -> (m ≫= f) st = (Raise e, st').
Proof. intros H. unfold mbind, M_bind. by rewrite H. Qed.

Lemma M_fmap_return {A B : Type} (m : M A) (f : A -> B) (st st' : state) (a : A) :
  m st = (Return a, st') -> (f <$> m) st = (Return (f a), st').
Proof. intros H. unfold fmap, M_fmap. by rewrite H. Qed.

Lemma M_fmap_raise {A B : Type} (m : M A) (f : A -> B) (st st' : state) (e : exn) :
  m st = (Raise e, st') -> (f <$> m) st = (Raise e, st').
Proof. intros H. unfold fmap, M_fmap. by rewrite H. Qed.

Lemma M_fmap_state {A B : Type} (m : M A) (f : A -> B) (st : state) :
  ((f <$> m) st).2 = (m st).2.
Proof. unfold fmap, M_fmap. by destruct (m st) as [[a|e] st']. Qed.

Section stage_facts.

Variable popen : string -> gset string -> (Z * string * string) * gset string.

Lemma run_checked_eq (cls : error_class) (cmd : string) (st : state)
    (rc : Z) (out err : string) (files' : gset string) :
  popen cmd (files (env st)) = ((rc, out, err), files') ->
  run_checked popen cls cmd st
  = (if bool_decide (rc ≠ 0) then Raise (Stage cls (mkCardConvertError cmd rc out err))
     else Return (rc, out, err),
     after_command st cmd files').
Proof.
  intros Hrun. unfold run_checked, mbind, M_bind, run_cmd. rewrite Hrun.
  by destruct (bool_decide (rc ≠ 0)).
Qed.

(** [_get_input_output] leaves the state as it is; it returns the static
    path and the output path under the folder of the kind, or raises
    [KeyError]. *)
Lemma get_input_output_cases (output_type : string) (st : state) :
  (exists input_ paths dir,
      static (_info (self st)) = Some input_ /\
      output_paths (_info (self st)) = Some paths /\
      paths !! output_type = Some dir /\
      _get_input_output output_type st
      = (Return (input_, os_path.join dir (os_path.basename input_)), st)) \/
  (exists key, _get_input_output output_type st = (Raise (KeyError key), st)).
Proof.
  unfold _get_input_output, mbind, M_bind, getitem, lift, lookup_key.
  destruct (static (_info (self st))) as [input_|]; [|by right; eexists].
  destruct (output_paths (_info (self st))) as [paths|]; [|by right; eexists].
  destruct (paths !! output_type) as [dir|] eqn:E; [|by right; eexists].
  left. by exists input_, paths, dir.
Qed.

End stage_facts.

Section stage_outcomes.

Variable popen : string -> gset string -> (Z * string * string) * gset string.
Variable card_class : option string.

Lemma key_error_not_stage {A : Type} (key : string) :
  not_stage_error (@Raise A (KeyError key)).
Proof. intros cls e. discriminate. Qed.



Lemma get_input_output_prep (output_type : string) (st : state) :
  (exists x, _get_input_output output_type st = (Return x, st)) \/
  (exists e, _get_input_output output_type st = (Raise e, st) /\
             not_stage_error (@Raise (option (Z * string * string)) e)).
Proof.
  destruct (get_input_output_cases output_type st)
    as [(input_ & paths & dir & _ & _ & _ & Hprep)|(key & Hprep)].
  - left. by eexists.
  - right. eexists. split; [done | apply key_error_not_stage].
Qed.

Lemma web_format_prep_eq (fext : string) (st : state) (f : string) (rest : list string)
    (cls : string) (cfg : Config.card_type) (input_ : string)
    (paths : gmap string string) (dir : string) :
  ff_out (_info (self st)) = Some (f :: rest) ->
  card_class = Some cls ->
  Config.card_types (_config (self st)) !! cls = Some cfg ->
  static (_info (self st)) = Some input_ ->
  output_paths (_info (self st)) = Some paths ->
  paths !! "animated" = Some dir ->
  _web_format_prep card_class fext st
  = (Return (re.sub (Config.frame_re cfg) "_%04d" (os_path.splitext f).1
               +:+ (os_path.splitext f).2,
             (os_path.splitext (os_path.join dir (os_path.basename input_))).1
               +:+ "." +:+ fext),
     st).
Proof.
  intros Hff Hcls Hcfg Hs Hp Hdir.
  unfold _web_format_prep, card_type_config, _get_input_output,
    mbind, M_bind, getitem, lift, get_self, lookup_key, first, property.
  rewrite Hff, Hcls. destruct (os_path.splitext f) as [header ext]. simpl.
  rewrite Hcfg, Hs, Hp, Hdir. unfold mret, M_ret.
  by destruct (os_path.splitext (os_path.join dir (os_path.basename input_))).
Qed.

Lemma web_format_prep_prep (fext : string) (st : state) :
  (exists x, _web_format_prep card_class fext st = (Return x, st)) \/
  (exists e, _web_format_prep card_class fext st = (Raise e, st) /\
             not_stage_error (@Raise (option (Z * string * string)) e)).
Proof.
  unfold _web_format_prep, card_type_config, _get_input_output,
    mbind, M_bind, getitem, lift, get_self, lookup_key, first, property.
  destruct (ff_out (_info (self st))) as [[|f rest]|];
    [by right; eexists | | by right; eexists].
  destruct (os_path.splitext f) as [header ext].
  destruct card_class as [cls|]; [|by right; eexists].
  destruct (Config.card_types (_config (self st)) !! cls) as [cfg|];
    [|by right; eexists].
  destruct (static (_info (self st))) as [input_|]; [|by right; eexists].
  destruct (output_paths (_info (self st))) as [paths|]; [|by right; eexists].
  destruct (paths !! "animated") as [dir|]; [|by right; eexists].
  left. unfold mret, M_ret.
  destruct (os_path.splitext (os_path.join dir (os_path.basename input_))).
  by eexists.
Qed.


(** The animated-loop stage, written out on a card that names its
    container: the checked run of the loop command, then the removal of
    the container. *)
Lemma animated_gif_eq (st : state) (container : string)
    (rc : Z) (o e : string) (files' : gset string) :
  container_of st = Some container ->
  popen (loop_command container) (files (env st)) = ((rc, o, e), files') ->
  _make_animated_gif popen st =
    if bool_decide (rc ≠ 0) then
      (Raise (Stage MakeAnimatedGIFError
                (mkCardConvertError (loop_command container) rc o e)),
       after_command st (loop_command container) files')
    else if bool_decide (container ∈ files') then
      (Return (rc, o, e),
       after_command st (loop_command container) (files' ∖ {[container]}))
    else
      (Raise (OSError container), after_command st (loop_command container) files').
Proof.
  unfold container_of, loop_command. intros Hc Hrun.
  unfold _make_animated_gif, _get_input_output, mbind, M_bind, getitem, lift,
    lookup_key, run_cmd, os_remove.
  destruct (static (_info (self st))) as [input_|]; [|done].
  destruct (output_paths (_info (self st))) as [paths|]; [|done].
  destruct (paths !! "animated") as [dir|]; [|done].
  injection Hc as <-. simpl.
  destruct (os_path.splitext (os_path.join dir (os_path.basename input_)))
    as [output ext]. simpl in Hrun. rewrite Hrun.
  destruct (bool_decide (rc ≠ 0)); [done|]. simpl.
  by destruct (bool_decide (os_path.join dir (os_path.basename input_) ∈ files')).
Qed.

Lemma animated_gif_no_container (st : state) :
  container_of st = None ->
  exists key, _make_animated_gif popen st = (Raise (KeyError key), st).
Proof.
  unfold container_of. intros Hc.
  destruct (get_input_output_cases "animated" st)
    as [(input_ & paths & dir & Hs & Hp & Hd & _)|(key & Hprep)].
  - by rewrite Hs, Hp, Hd in Hc.
  - exists key. unfold _make_animated_gif. by rewrite (M_bind_raise _ _ _ _ _ Hprep).
Qed.


End stage_outcomes.



(** ** The animated-loop stage and its container *)

(** C8: in the animated-loop stage the container is deleted once the
    converter has run: on status zero the stage returns and the container is
    no longer among the files; on a non-zero status the animated-loop error
    is raised with the files as the converter left them, the container among
    them. *)
Theorem animated_gif_removes_container
    (popen : string -> gset string -> (Z * string * string) * gset string)
    (st : state) (container : string) (rc : Z) (o e : string) (files' : gset string) :
  container_of st = Some container ->
  popen (loop_command container) (files (env st)) = ((rc, o, e), files') ->
  container ∈ files' ->
  (rc = 0 ->
   _make_animated_gif popen st
   = (Return (rc, o, e), after_command st (loop_command container) (files' ∖ {[container]})) /\
   container ∉ files (env (_make_animated_gif popen st).2)) /\
  (rc <> 0 ->
   _make_animated_gif popen st
   = (Raise (Stage MakeAnimatedGIFError (mkCardConvertError (loop_command container) rc o e)),
      after_command st (loop_command container) files') /\
   container ∈ files (env (_make_animated_gif popen st).2)).
Proof.
  intros Hc Hrun Hin. rewrite (animated_gif_eq popen st container rc o e files' Hc Hrun).
  split; intros Hrc.
  - rewrite bool_decide_eq_false_2 by lia. rewrite bool_decide_eq_true_2 by done.
    split; [done|]. simpl. intros Hx. apply elem_of_difference in Hx as [_ Hx].
    apply Hx. by apply elem_of_singleton.
  - rewrite bool_decide_eq_true_2 by done. by split.
Qed.

Lemma animated_gif_removes_container_witness :
  (0 = 0 ->
   _make_animated_gif popen_ok
     (mkState example_card (mkWorld {["/out/cards/enUS/animated/A.png"]} []))
   = (Return (0, EmptyString, EmptyString),
      after_command (mkState example_card (mkWorld {["/out/cards/enUS/animated/A.png"]} []))
        (loop_command "/out/cards/enUS/animated/A.png")
        ({["/out/cards/enUS/animated/A.png"]} ∖ {["/out/cards/enUS/animated/A.png"]})) /\
   "/out/cards/enUS/animated/A.png" ∉
     files (env (_make_animated_gif popen_ok
                   (mkState example_card
                      (mkWorld {["/out/cards/enUS/animated/A.png"]} []))).2)) /\
  (0 <> 0 ->
   _make_animated_gif popen_ok
     (mkState example_card (mkWorld {["/out/cards/enUS/animated/A.png"]} []))
   = (Raise (Stage MakeAnimatedGIFError
               (mkCardConvertError (loop_command "/out/cards/enUS/animated/A.png") 0
                  EmptyString EmptyString)),
      after_command (mkState example_card (mkWorld {["/out/cards/enUS/animated/A.png"]} []))
        (loop_command "/out/cards/enUS/animated/A.png")
        {["/out/cards/enUS/animated/A.png"]}) /\
   "/out/cards/enUS/animated/A.png" ∈
     files (env (_make_animated_gif popen_ok
                   (mkState example_card
                      (mkWorld {["/out/cards/enUS/animated/A.png"]} []))).2)).
Proof.
  apply (animated_gif_removes_container popen_ok
           (mkState example_card (mkWorld {["/out/cards/enUS/animated/A.png"]} []))
           "/out/cards/enUS/animated/A.png" 0 EmptyString EmptyString
           {["/out/cards/enUS/animated/A.png"]}).
  - vm_compute. reflexivity.
  - reflexivity.
  - apply elem_of_singleton. reflexivity.
Defined.

(** Without the container among the files the converter leaves, the removal
    raises [OSError] on status zero. *)
Lemma animated_gif_missing_container
    (popen : string -> gset string -> (Z * string * string) * gset string)
    (st : state) (container : string) (o e : string) (files' : gset string) :
  container_of st = Some container ->
  popen (loop_command container) (files (env st)) = ((0, o, e), files') ->
  container ∉ files' ->
  _make_animated_gif popen st
  = (Raise (OSError container), after_command st (loop_command container) files').
Proof.
  intros Hc Hrun Hin. rewrite (animated_gif_eq popen st container 0 o e files' Hc Hrun).
  rewrite bool_decide_eq_false_2 by lia. by rewrite bool_decide_eq_false_2.
Qed.


(** ** The command lines of the stages *)

Lemma resize_commands (input_ output : string) :
  _make_medium_copy_cmd input_ output = resize_recipe "200x303" input_ output /\
  _make_small_copy_cmd input_ output = resize_recipe "123x186" input_ output /\
  _make_small_icons_cmd input_ output = resize_recipe "11x16" input_ output /\
  _make_medium_icons_cmd input_ output = resize_recipe "30x44" input_ output /\
  _make_large_icons_cmd input_ output = resize_recipe "40x60" input_ output.
Proof. repeat split. Qed.

Lemma jpg_command (input_ output : string) :
  _make_jpg_copy_cmd input_ output = jpg_recipe input_ output.
Proof. reflexivity. Qed.

Lemma web_commands (input_ output : string) :
  _make_mp4_cmd input_ output = mp4_recipe input_ output /\
  _make_webm_cmd input_ output = webm_recipe input_ output.
Proof. split; reflexivity. Qed.

Lemma take_drop (n : nat) (s : string) : Py.take n s +:+ Py.drop n s = s.
Proof.
  revert s. induction n as [|n IH]; intros s; [done|].
  destruct s as [|a s]; [done|]. simpl. rewrite append_cons. by rewrite IH.
Qed.

(** [splitext] cuts a path in two. *)
Lemma splitext_parts (p : string) : (os_path.splitext p).1 +:+ (os_path.splitext p).2 = p.
Proof.
  unfold os_path.splitext.
  destruct (_ && _); simpl; [apply take_drop|].
  induction p as [|a p IH]; [done|]. rewrite append_cons. by rewrite IH.
Qed.

Section spawned_commands.

Variable popen : string -> gset string -> (Z * string * string) * gset string.

(** The command line a prepared stage adds. *)
Lemma prepared_stage_spawned {X : Type} (cls : error_class) (prep : M X)
    (command : X -> string) (body : X -> M (Z * string * string)) (st : state) (x : X) :
  (forall x st', body x st' = run_checked popen cls (command x) st') ->
  prep st = (Return x, st) ->
  spawned (env ((Some <$> (prep ≫= body)) st).2) = spawned (env st) ++ [command x].
Proof.
  intros Hbody Hprep.
  destruct (popen (command x) (files (env st))) as [[[rc o] e] files'] eqn:Hrun.
  unfold fmap, M_fmap. rewrite (M_bind_return _ _ _ _ _ Hprep), Hbody.
  rewrite (run_checked_eq popen cls _ st rc o e files' Hrun).
  by destruct (bool_decide (rc ≠ 0)).
Qed.

Lemma get_input_output_eq (output_type : string) (st : state) (input_ : string)
    (paths : gmap string string) (dir : string) :
  static (_info (self st)) = Some input_ ->
  output_paths (_info (self st)) = Some paths ->
  paths !! output_type = Some dir ->
  _get_input_output output_type st
  = (Return (input_, os_path.join dir (os_path.basename input_)), st).
Proof.
  intros Hs Hp Hd.
  unfold _get_input_output, mbind, M_bind, getitem, lift, lookup_key.
  by rewrite Hs, Hp, Hd.
Qed.

End spawned_commands.

(** C5: each stage that makes a static variant runs one command, which
    resizes with the filter lanczos and the unsharp mask 1.5x1+0.7+0.02 to
    the geometry of the stage (200x303, 123x186, 11x16, 30x44, 40x60) into
    the folder of its output kind; the command of the jpg copy flattens onto
    the background #242424, resizes to 200x303, crops to 200x302 from the
    bottom, writes at quality 85%, and its output is the output path with the
    extension, whatever it is, replaced by .jpg. *)
Theorem static_variant_commands
    (popen : string -> gset string -> (Z * string * string) * gset string)
    (card_class : option string) (s : stage) (output_type : string)
    (recipe : string -> string -> string) (st : state)
    (input_ : string) (paths : gmap string string) (dir : string) :
  static_variant s = Some (output_type, recipe) ->
  static (_info (self st)) = Some input_ ->
  output_paths (_info (self st)) = Some paths ->
  paths !! output_type = Some dir ->
  spawned (env (run_stage popen card_class s st).2)
  = spawned (env st) ++ [recipe input_ (os_path.join dir (os_path.basename input_))] /\
  (forall output,
     (os_path.splitext output).1 +:+ (os_path.splitext output).2 = output) /\
  (forall i o,
     _make_medium_copy_cmd i o = resize_recipe "200x303" i o /\
     _make_small_copy_cmd i o = resize_recipe "123x186" i o /\
     _make_small_icons_cmd i o = resize_recipe "11x16" i o /\
     _make_medium_icons_cmd i o = resize_recipe "30x44" i o /\
     _make_large_icons_cmd i o = resize_recipe "40x60" i o /\
     _make_jpg_copy_cmd i o = jpg_recipe i o).
Proof.
  intros Hs Hstatic Hpaths Hdir.
  split; [|split; [apply splitext_parts | intros i o; repeat split]].
  pose proof (get_input_output_eq output_type st input_ paths dir Hstatic Hpaths Hdir)
    as Hprep.
  destruct s; simpl in Hs; try discriminate; injection Hs as <- <-.
  - exact (prepared_stage_spawned popen MakeMediumCopyError (_get_input_output "medium")
             (fun x => _make_medium_copy_cmd x.1 x.2)
             (fun '(i, o) => run_checked popen MakeMediumCopyError (_make_medium_copy_cmd i o))
             st _ ltac:(by intros [i o] st') Hprep).
  - exact (prepared_stage_spawned popen MakeSmallCopyError (_get_input_output "small")
             (fun x => _make_small_copy_cmd x.1 x.2)
             (fun '(i, o) => run_checked popen MakeSmallCopyError (_make_small_copy_cmd i o))
             st _ ltac:(by intros [i o] st') Hprep).
  - exact (prepared_stage_spawned popen MakeJpgCopyError (_get_input_output "mediumj")
             (fun x => _make_jpg_copy_cmd x.1 ((os_path.splitext x.2).1 +:+ ".jpg"))
             (fun '(i, o) =>
                let '(output, ext) := os_path.splitext o in
                run_checked popen MakeJpgCopyError (_make_jpg_copy_cmd i (output +:+ ".jpg")))
             st _ ltac:(by intros [i o] st'; simpl; destruct (os_path.splitext o)) Hprep).
  - exact (prepared_stage_spawned popen MakeSmallIconError (_get_input_output "icons/small")
             (fun x => _make_small_icons_cmd x.1 x.2)
             (fun '(i, o) => run_checked popen MakeSmallIconError (_make_small_icons_cmd i o))
             st _ ltac:(by intros [i o] st') Hprep).
  - exact (prepared_stage_spawned popen MakeMediumIconError (_get_input_output "icons/medium")
             (fun x => _make_medium_icons_cmd x.1 x.2)
             (fun '(i, o) => run_checked popen MakeMediumIconError (_make_medium_icons_cmd i o))
             st _ ltac:(by intros [i o] st') Hprep).
  - exact (prepared_stage_spawned popen MakeLargeIconError (_get_input_output "icons/large")
             (fun x => _make_large_icons_cmd x.1 x.2)
             (fun '(i, o) => run_checked popen MakeLargeIconError (_make_large_icons_cmd i o))
             st _ ltac:(by intros [i o] st') Hprep).
Qed.

Lemma static_variant_commands_witness :
  spawned (env (run_stage popen_ok (Some "cards") jpg_copy
                  (mkState example_card (mkWorld ∅ []))).2)
  = spawned (env (mkState example_card (mkWorld ∅ [])))
    ++ [jpg_recipe "/in/cards/A.png"
          ((os_path.splitext
              (os_path.join "/out/cards/enUS/mediumj" (os_path.basename "/in/cards/A.png"))).1
           +:+ ".jpg")] /\
  (forall output,
     (os_path.splitext output).1 +:+ (os_path.splitext output).2 = output) /\
  (forall i o,
     _make_medium_copy_cmd i o = resize_recipe "200x303" i o /\
     _make_small_copy_cmd i o = resize_recipe "123x186" i o /\
     _make_small_icons_cmd i o = resize_recipe "11x16" i o /\
     _make_medium_icons_cmd i o = resize_recipe "30x44" i o /\
     _make_large_icons_cmd i o = resize_recipe "40x60" i o /\
     _make_jpg_copy_cmd i o = jpg_recipe i o).
Proof.
  apply (static_variant_commands popen_ok (Some "cards") jpg_copy "mediumj"
           (fun input_ output => jpg_recipe input_ ((os_path.splitext output).1 +:+ ".jpg"))
           (mkState example_card (mkWorld ∅ []))
           "/in/cards/A.png" example_paths "/out/cards/enUS/mediumj").
  - reflexivity.
  - reflexivity.
  - reflexivity.
  - vm_compute. reflexivity.
Defined.

Example jpg_copy_command :
  spawned (env (run_stage popen_ok (Some "cards") jpg_copy
                  (mkState example_card (mkWorld ∅ []))).2)
  = ["convert /in/cards/A.png -background " +:+ dquote +:+ "#242424" +:+ dquote
     +:+ " -layers flatten -filter lanczos -resize 200x303 +repage -gravity south -crop 200x302+0+0 +repage -unsharp 1.5x1+0.7+0.02 -quality 85% /out/cards/enUS/mediumj/A.jpg"].
Proof. vm_compute. reflexivity. Qed.

(** ** The web encodes *)

(** C4, as the code has it: the two web encodes read a frame pattern made
    from the first of the prepared frames of the card (the list under
    [ff_out]), not from the container, by replacing the match of the frame
    pattern in its path without extension by [_%04d]; both run at 11 frames
    a second, the mp4 one with baseline profile, level 3.0 and pixel format
    yuv420p, the webm one with no further option, and each writes to the
    output path of the kind [animated] with the extension replaced by the
    one of its format. *)
Theorem web_encodes_read_prepared_frames
    (popen : string -> gset string -> (Z * string * string) * gset string)
    (card_class : option string) (st : state) (f : string) (rest : list string)
    (cls : string) (cfg : Config.card_type) (input_ : string)
    (paths : gmap string string) (dir : string) :
  ff_out (_info (self st)) = Some (f :: rest) ->
  card_class = Some cls ->
  Config.card_types (_config (self st)) !! cls = Some cfg ->
  static (_info (self st)) = Some input_ ->
  output_paths (_info (self st)) = Some paths ->
  paths !! "animated" = Some dir ->
  spawned (env (_make_mp4 popen card_class st).2)
  = spawned (env st)
    ++ [mp4_recipe (frame_pattern (Config.frame_re cfg) f)
          ((os_path.splitext (os_path.join dir (os_path.basename input_))).1 +:+ ".mp4")] /\
  spawned (env (_make_webm popen card_class st).2)
  = spawned (env st)
    ++ [webm_recipe (frame_pattern (Config.frame_re cfg) f)
          ((os_path.splitext (os_path.join dir (os_path.basename input_))).1 +:+ ".webm")].
Proof.
  intros Hff Hcls Hcfg Hs Hp Hdir.
  pose proof (fun fext => web_format_prep_eq card_class fext st f rest cls cfg input_ paths dir
                            Hff Hcls Hcfg Hs Hp Hdir) as Hprep.
  split.
  - rewrite <- (M_fmap_state (_make_mp4 popen card_class) Some).
    exact (prepared_stage_spawned popen MakeMP4Error (_web_format_prep card_class "mp4")
             (fun x => _make_mp4_cmd x.1 x.2)
             (fun '(i, o) => run_checked popen MakeMP4Error (_make_mp4_cmd i o))
             st _ ltac:(by intros [i o] st') (Hprep "mp4")).
  - rewrite <- (M_fmap_state (_make_webm popen card_class) Some).
    exact (prepared_stage_spawned popen MakeWEBMError (_web_format_prep card_class "webm")
             (fun x => _make_webm_cmd x.1 x.2)
             (fun '(i, o) => run_checked popen MakeWEBMError (_make_webm_cmd i o))
             st _ ltac:(by intros [i o] st') (Hprep "webm")).
Qed.

Lemma web_encodes_read_prepared_frames_witness :
  spawned (env (_make_mp4 popen_ok (Some "cards") (mkState example_card (mkWorld ∅ []))).2)
  = spawned (env (mkState example_card (mkWorld ∅ [])))
    ++ [mp4_recipe (frame_pattern (Config.frame_re example_card_type)
                      "/tmp/animation_temp/ff_A_0001.png")
          ((os_path.splitext
              (os_path.join "/out/cards/enUS/animated" (os_path.basename "/in/cards/A.png"))).1
           +:+ ".mp4")] /\
  spawned (env (_make_webm popen_ok (Some "cards") (mkState example_card (mkWorld ∅ []))).2)
  = spawned (env (mkState example_card (mkWorld ∅ [])))
    ++ [webm_recipe (frame_pattern (Config.frame_re example_card_type)
                       "/tmp/animation_temp/ff_A_0001.png")
          ((os_path.splitext
              (os_path.join "/out/cards/enUS/animated" (os_path.basename "/in/cards/A.png"))).1
           +:+ ".webm")].
Proof.
  apply (web_encodes_read_prepared_frames popen_ok (Some "cards")
           (mkState example_card (mkWorld ∅ []))
           "/tmp/animation_temp/ff_A_0001.png" [] "cards" example_card_type
           "/in/cards/A.png" example_paths "/out/cards/enUS/animated").
  - reflexivity.
  - reflexivity.
  - vm_compute. reflexivity.
  - reflexivity.
  - reflexivity.
  - vm_compute. reflexivity.
Defined.

Example web_commands_of_example_card :
  spawned (env (_make_mp4 popen_ok (Some "cards") (mkState example_card (mkWorld ∅ []))).2)
  = ["ffmpeg -f image2 -framerate 11 -i /tmp/animation_temp/ff_A_%04d.png -profile:v baseline -level 3.0 -pix_fmt yuv420p /out/cards/enUS/animated/A.mp4"] /\
  spawned (env (_make_webm popen_ok (Some "cards") (mkState example_card (mkWorld ∅ []))).2)
  = ["ffmpeg -f image2 -framerate 11 -i /tmp/animation_temp/ff_A_%04d.png  /out/cards/enUS/animated/A.webm"].
Proof. split; vm_compute; reflexivity. Qed.

(** C4 as stated does not hold: the pattern the web encodes read is made
    from the prepared frame [/tmp/animation_temp/ff_A_0001.png] of the card,
    not from its frame [/in/cards/anim/A_0001.png]. *)
Lemma web_input_from_original_frames_fails : ~ web_input_from_original_frames.
Proof.
  intros Hclaim.
  destruct (Hclaim (Some "cards") "mp4" (mkState example_card (mkWorld ∅ []))
              "cards" example_card_type ["/in/cards/anim/A_0001.png"]
              "/tmp/animation_temp/ff_A_%04d.png" "/out/cards/enUS/animated/A.mp4"
              (mkState example_card (mkWorld ∅ [])))
    as (frame & Hin & Hpat).
  - reflexivity.
  - discriminate.
  - reflexivity.
  - vm_compute. reflexivity.
  - vm_compute. reflexivity.
  - apply list_elem_of_singleton in Hin. subst frame. vm_compute in Hpat. discriminate.
Qed.

(** A card with frames and nothing under [ff_out] gets no pattern at all. *)
Example web_format_prep_without_ff_out :
  _web_format_prep (Some "cards") "mp4"
    (mkState (mkCard example_config
                (mkInfo (Some "/in/cards/A.png") (Some ["/in/cards/anim/A_0001.png"])
                        (Some example_paths) None) "A" "enUS")
             (mkWorld ∅ []))
  = (Raise (KeyError "ff_out"),
     mkState (mkCard example_config
                (mkInfo (Some "/in/cards/A.png") (Some ["/in/cards/anim/A_0001.png"])
                        (Some example_paths) None) "A" "enUS")
             (mkWorld ∅ [])).
Proof. reflexivity. Qed.

(** ** The dispatcher *)

Section pool.

Variable os_makedirs : string -> gset string -> bool * gset string.
Variable shutil_copy2 : string -> string -> gset string -> option exn * gset string.






End pool.


Example pool_with_failing_second_card :
  (run_pool makedirs_ok copy2_ok [plain_card "A"; plain_card "B"; plain_card "C"] "/out"
     (mkWorld ∅ [])).1
  = Raise (Stage MakeMediumCopyError
             (mkCardConvertError
                "convert /in/cards/B.png -filter lanczos -resize 200x303 -unsharp 1.5x1+0.7+0.02 /out/cards/enUS/medium/B.png"
                1 EmptyString "convert: unable to open image")).
Proof. vm_compute. reflexivity. Qed.

Example pool_with_no_failing_card :
  (run_pool makedirs_ok copy2_ok [plain_card "A"; plain_card "C"] "/out" (mkWorld ∅ [])).1
  = Return ["Finished processing A:enUS"; "Finished processing C:enUS"].
Proof. vm_compute. reflexivity. Qed.

(** The units of the cards after the failing one have run all the same. *)
Example pool_runs_every_unit :
  (submit makedirs_ok copy2_ok [plain_card "A"; plain_card "B"; plain_card "C"] "/out"
     (mkWorld ∅ [])).1
  = [Return "Finished processing A:enUS";
     Raise (Stage MakeMediumCopyError
              (mkCardConvertError
                 "convert /in/cards/B.png -filter lanczos -resize 200x303 -unsharp 1.5x1+0.7+0.02 /out/cards/enUS/medium/B.png"
                 1 EmptyString "convert: unable to open image"));
     Return "Finished processing C:enUS"].
Proof. vm_compute. reflexivity. Qed.


(** * Further properties *)

(** ** The order of file names *)

Lemma ascii_compare_refl (a : ascii) : Ascii.compare a a = Eq.
Proof. apply N.compare_refl. Qed.

Lemma ascii_compare_lt_trans (a b c : ascii) :
  Ascii.compare a b = Lt -> Ascii.compare b c = Lt -> Ascii.compare a c = Lt.
Proof. unfold Ascii.compare. rewrite !N.compare_lt_iff. lia. Qed.

Lemma string_compare_le_trans (s1 s2 s3 : string) :
  String.compare s1 s2 <> Gt -> String.compare s2 s3 <> Gt -> String.compare s1 s3 <> Gt.
Proof.
  revert s2 s3. induction s1 as [|a s1 IH]; intros [|b s2] [|c s3]; simpl; try done.
  destruct (Ascii.compare a b) eqn:E1; [| |done];
    destruct (Ascii.compare b c) eqn:E2; try done.
  - apply Ascii.compare_eq_iff in E1, E2. subst. rewrite ascii_compare_refl. apply IH.
  - apply Ascii.compare_eq_iff in E1. subst. by rewrite E2.
  - apply Ascii.compare_eq_iff in E2. subst. by rewrite E1.
  - by rewrite (ascii_compare_lt_trans a b c).
Qed.

#[local] Instance name_le_trans : Transitive name_le.
Proof.
  intros s1 s2 s3. unfold name_le, String.leb. intros H12 H23.
  pose proof (string_compare_le_trans s1 s2 s3) as Ht.
  destruct (String.compare s1 s2); destruct (String.compare s2 s3);
    destruct (String.compare s1 s3); try done; by exfalso; apply Ht.
Qed.

#[local] Instance name_le_antisym : AntiSymm (=) name_le.
Proof. intros s1 s2. apply String.leb_antisym. Qed.

Lemma sorted_name_le (l : list string) : Sorted name_le (Py.sorted l).
Proof. apply sorted_ascending. Qed.

(** What [sorted] returns depends on the elements of its argument only. *)
Lemma sorted_of_permutation (l l' : list string) : l ≡ₚ l' -> Py.sorted l = Py.sorted l'.
Proof.
  intros Hl. apply (Sorted_unique name_le); [apply sorted_name_le..|].
  by rewrite !sorted_perm.
Qed.

Lemma strongly_sorted_filter {A : Type} (R : relation A) (P : A -> Prop)
    `{!forall x, Decision (P x)} (l : list A) :
  StronglySorted R l -> StronglySorted R (filter P l).
Proof.
  induction 1 as [|x l Hl IH Hx]; [constructor|].
  destruct (decide (P x)).
  - rewrite filter_cons_True by done. constructor; [done|].
    apply Forall_forall. intros y Hy. apply list_elem_of_filter in Hy as [_ Hy].
    rewrite Forall_forall in Hx. by apply Hx.
  - by rewrite filter_cons_False.
Qed.

(** ** The two loops of the crawler, in full *)

(** X1: what the crawler makes of a directory does not depend on the order
    in which the directory lists its files, nor on the names of its
    sub-directories. *)
Theorem crawl_dir_listing_order (frame_re : re.regex) (anim_folder : string)
    (cards : gmap string info) (path : string) (subdir subdir' files_ files_' : list string) :
  files_ ≡ₚ files_' ->
  crawl_dir frame_re anim_folder cards (path, subdir, files_)
  = crawl_dir frame_re anim_folder cards (path, subdir', files_').
Proof.
  intros Hperm. unfold crawl_dir. by rewrite (sorted_of_permutation files_ files_' Hperm).
Qed.

Lemma crawl_dir_listing_order_witness :
  crawl_dir underscore_digits "anim" ∅ ("/in/cards", ["anim"], ["B.png"; "A.png"])
  = crawl_dir underscore_digits "anim" ∅ ("/in/cards", [], ["A.png"; "B.png"]).
Proof.
  apply (crawl_dir_listing_order underscore_digits "anim" ∅ "/in/cards" ["anim"] []
           ["B.png"; "A.png"] ["A.png"; "B.png"]).
  apply perm_swap.
Defined.

Lemma static_loop_first (path : string) (l : list string) (cards : gmap string info)
    (k : string) :
  cards !! k = None ->
  exists cards',
    for_each (crawl_static path) l cards = Return cards' /\
    cards' !! k = (fun f => new_bundle (os_path.join path f)) <$> head (filter (static_of k) l).
Proof.
  revert cards. induction l as [|f l IH]; intros cards Hk.
  - exists cards. by rewrite Hk.
  - rewrite for_each_cons, crawl_static_eq, bind_return.
    destruct (decide (static_of k f)) as [[Hvis Hkey]|Hno].
    + rewrite filter_cons_True by done. rewrite Hvis, Hkey, Hk. simpl.
      assert (exists cards',
                for_each (crawl_static path) l (<[k := new_bundle (os_path.join path f)]> cards)
                = Return cards' /\
                cards' !! k = Some (new_bundle (os_path.join path f))) as (cards' & ? & ?);
        [|by eauto].
      apply (for_each_invariant
               (fun acc => acc !! k = Some (new_bundle (os_path.join path f)))).
      * by rewrite lookup_insert_eq.
      * intros acc x _ Hacc. rewrite crawl_static_eq. eexists. split; [done|].
        destruct (hidden x); [done|].
        destruct (acc !! (os_path.splitext x).1) eqn:E; [done|].
        rewrite lookup_insert_ne; [done | congruence].
    + rewrite filter_cons_False by done. apply IH.
      destruct (hidden f) eqn:Hvis; [done|].
      destruct (cards !! (os_path.splitext f).1) eqn:E; [done|].
      rewrite lookup_insert_ne; [done|]. intros Heq. apply Hno. by split.
Qed.

(** X2: in a directory that is not the animation folder, a base name that
    has no bundle yet gets the visible file with that base name whose name
    comes first in the order of [sorted] as its static path, and no frame; it
    gets no bundle when there is no such file. *)
Theorem crawl_dir_first_name_wins (frame_re : re.regex) (anim_folder : string)
    (cards : gmap string info) (path : string) (subdir files_ : list string) (k : string) :
  String.eqb (os_path.basename path) anim_folder = false ->
  cards !! k = None ->
  exists cards',
    crawl_dir frame_re anim_folder cards (path, subdir, files_) = Return cards' /\
    cards' !! k
    = (fun f => new_bundle (os_path.join path f))
        <$> head (filter (static_of k) (Py.sorted files_)) /\
    StronglySorted name_le (filter (static_of k) (Py.sorted files_)).
Proof.
  intros Hpath Hk. unfold crawl_dir. rewrite Hpath. simpl.
  destruct (static_loop_first path (Py.sorted files_) cards k Hk) as (cards' & -> & Hk').
  exists cards'. split; [done|]. split; [done|].
  apply strongly_sorted_filter, Sorted_StronglySorted; [apply _ | apply sorted_name_le].
Qed.

Lemma crawl_dir_first_name_wins_witness :
  exists cards',
    crawl_dir underscore_digits "anim" ∅ ("/in/cards", [], ["A.png"; ".A.swp"; "A.jpg"])
    = Return cards' /\
    cards' !! "A"
    = (fun f => new_bundle (os_path.join "/in/cards" f))
        <$> head (filter (static_of "A") (Py.sorted ["A.png"; ".A.swp"; "A.jpg"])) /\
    StronglySorted name_le (filter (static_of "A") (Py.sorted ["A.png"; ".A.swp"; "A.jpg"])).
Proof.
  apply (crawl_dir_first_name_wins underscore_digits "anim" ∅ "/in/cards" []
           ["A.png"; ".A.swp"; "A.jpg"] "A").
  - vm_compute. reflexivity.
  - reflexivity.
Defined.

Example first_name_wins_jpg :
  crawl_dir underscore_digits "anim" ∅ ("/in/cards", [], ["A.png"; ".A.swp"; "A.jpg"])
  = Return {[ "A" := new_bundle "/in/cards/A.jpg" ]}.
Proof. vm_compute. reflexivity. Qed.

Lemma animated_loop_frames (frame_re : re.regex) (path : string) (l : list string)
    (cards : gmap string info) (k : string) (d : info) (frames : list string) :
  bundles_complete cards ->
  cards !! k = Some d ->
  animated d = Some frames ->
  exists cards' d',
    for_each (crawl_animated frame_re path) l cards = Return cards' /\
    bundles_complete cards' /\
    cards' !! k = Some d' /\
    static d' = static d /\
    animated d' = Some (frames ++ (os_path.join path <$> filter (frame_of frame_re k) l)).
Proof.
  revert cards d frames. induction l as [|f l IH]; intros cards d frames Hc Hk Hfr.
  - exists cards, d. rewrite filter_nil, fmap_nil, app_nil_r.
    split; [done|]. split; [done|]. split; [done|]. by split.
  - rewrite for_each_cons.
    destruct (crawl_animated_keeps frame_re path cards f Hc) as (cards1 & Heq & Hc1 & _).
    rewrite Heq, bind_return. rewrite crawl_animated_eq in Heq by done.
    injection Heq as Heq.
    destruct (decide (frame_of frame_re k f)) as [[Hvis Hkey]|Hno].
    + rewrite filter_cons_True by done.
      rewrite Hvis, Hkey, Hk, Hfr in Heq. simpl in Heq.
      destruct (IH cards1 (mkInfo (static d) (Some (frames ++ [os_path.join path f]))
                                  (output_paths d) (ff_out d))
                   (frames ++ [os_path.join path f]) Hc1)
        as (cards' & d' & Hloop & Hc' & Hk' & Hs' & Hfr'); [|done|].
      { subst cards1. by rewrite lookup_insert_eq. }
      exists cards', d'. rewrite fmap_cons, Hfr', <- app_assoc.
      split; [done|]. split; [done|]. split; [done|]. by split.
    + rewrite filter_cons_False by done.
      apply (IH cards1 d frames Hc1); [|done].
      subst cards1. destruct (hidden f) eqn:Hvis; [done|].
      destruct (cards !! frame_key frame_re f) eqn:E; [|done].
      rewrite lookup_insert_ne; [done|]. intros Heq. apply Hno. by split.
Qed.

(** X3: the animation folder appends to a bundle that exists the full paths
    of its visible files whose frame key is the key of the bundle, all of
    them and no other, in ascending order of their names, behind the frames
    the bundle had; the static path stays. *)
Theorem crawl_dir_appends_frames (frame_re : re.regex) (anim_folder : string)
    (cards : gmap string info) (path : string) (subdir files_ : list string)
    (k : string) (d : info) (frames : list string) :
  String.eqb (os_path.basename path) anim_folder = true ->
  bundles_complete cards ->
  cards !! k = Some d ->
  animated d = Some frames ->
  exists cards' d',
    crawl_dir frame_re anim_folder cards (path, subdir, files_) = Return cards' /\
    cards' !! k = Some d' /\
    static d' = static d /\
    animated d'
    = Some (frames ++ (os_path.join path <$> filter (frame_of frame_re k) (Py.sorted files_))) /\
    StronglySorted name_le (filter (frame_of frame_re k) (Py.sorted files_)) /\
    (forall f, f ∈ filter (frame_of frame_re k) (Py.sorted files_)
               <-> f ∈ files_ /\ frame_of frame_re k f).
Proof.
  intros Hpath Hc Hk Hfr. unfold crawl_dir. rewrite Hpath. simpl.
  destruct (animated_loop_frames frame_re path (Py.sorted files_) cards k d frames Hc Hk Hfr)
    as (cards' & d' & -> & _ & Hk' & Hs' & Hfr').
  exists cards', d'. split; [done|]. split; [done|]. split; [done|]. split; [done|]. split.
  - apply strongly_sorted_filter, Sorted_StronglySorted; [apply _ | apply sorted_name_le].
  - intros f. rewrite list_elem_of_filter, elem_of_sorted. tauto.
Qed.

Lemma crawl_dir_appends_frames_witness :
  exists cards' d',
    crawl_dir underscore_digits "anim" {[ "A" := new_bundle "/in/cards/A.png" ]}
      ("/in/cards/anim", [], ["A_0010.png"; "B_0001.png"; ".A_0003.png"; "A_0002.png"])
    = Return cards' /\
    cards' !! "A" = Some d' /\
    static d' = static (new_bundle "/in/cards/A.png") /\
    animated d'
    = Some ([] ++ (os_path.join "/in/cards/anim"
                     <$> filter (frame_of underscore_digits "A")
                           (Py.sorted ["A_0010.png"; "B_0001.png"; ".A_0003.png"; "A_0002.png"]))) /\
    StronglySorted name_le
      (filter (frame_of underscore_digits "A")
         (Py.sorted ["A_0010.png"; "B_0001.png"; ".A_0003.png"; "A_0002.png"])) /\
    (forall f, f ∈ filter (frame_of underscore_digits "A")
                     (Py.sorted ["A_0010.png"; "B_0001.png"; ".A_0003.png"; "A_0002.png"])
               <-> f ∈ ["A_0010.png"; "B_0001.png"; ".A_0003.png"; "A_0002.png"]
                   /\ frame_of underscore_digits "A" f).
Proof.
  apply (crawl_dir_appends_frames underscore_digits "anim"
           {[ "A" := new_bundle "/in/cards/A.png" ]} "/in/cards/anim" []
           ["A_0010.png"; "B_0001.png"; ".A_0003.png"; "A_0002.png"]
           "A" (new_bundle "/in/cards/A.png") []).
  - vm_compute. reflexivity.
  - intros k d. rewrite lookup_singleton. case_decide; [|done].
    intros [= <-]. split; by eexists.
  - reflexivity.
  - reflexivity.
Defined.

Example frames_in_name_order :
  crawl_dir underscore_digits "anim" {[ "A" := new_bundle "/in/cards/A.png" ]}
    ("/in/cards/anim", [], ["A_0010.png"; "B_0001.png"; ".A_0003.png"; "A_0002.png"])
  = Return {[ "A" := mkInfo (Some "/in/cards/A.png")
                            (Some ["/in/cards/anim/A_0002.png"; "/in/cards/anim/A_0010.png"])
                            None None ]}.
Proof. vm_compute. reflexivity. Qed.

(** Names that are not padded sort by their characters, not by their number. *)
Example frames_unpadded_order :
  crawl_dir underscore_digits "anim" {[ "A" := new_bundle "/in/cards/A.png" ]}
    ("/in/cards/anim", [], ["A_2.png"; "A_10.png"])
  = Return {[ "A" := mkInfo (Some "/in/cards/A.png")
                            (Some ["/in/cards/anim/A_10.png"; "/in/cards/anim/A_2.png"])
                            None None ]}.
Proof. vm_compute. reflexivity. Qed.

(** ** The keys of a crawl *)

(** X4: the keys of the mapping [crawler] returns are exactly the base names
    of the visible files listed in the directories of the walk other than
    the animation folders. *)
Theorem crawler_keys (fs : disk) (target_dir : string) (frame_re : re.regex)
    (anim_folder : string) :
  exists cards,
    crawler fs target_dir frame_re anim_folder = Return cards /\
    forall k, is_Some (cards !! k)
              <-> exists p, listed_static anim_folder (os.walk fs target_dir) k p.
Proof.
  destruct (crawl_walk_sources frame_re anim_folder (os.walk fs target_dir))
    as (cards & Hret & Hc & Hp).
  unfold crawler. destruct (os.path.isdir fs target_dir) eqn:Hdir.
  - exists cards. split; [done|]. intros k. split.
    + intros [d Hd]. destruct (Hc k d Hd) as [[p Hs] _]. exists p.
      destruct (Hp k d Hd) as [HQ _]. by apply HQ.
    + intros (p & path & subdir & files_ & f & Hentry & Hpath & Hf & Hvis & Hkey & _).
      destruct (for_each_reaches (crawl_dir frame_re anim_folder) (fun _ => True)
                  (fun c => is_Some (c !! k)) (os.walk fs target_dir)
                  (path, subdir, files_) ∅) as (cards' & Hret' & _ & _ & Hk).
      * intros acc y Hacc. by apply crawl_dir_keeps.
      * done.
      * intros c c'. apply grows_has_key.
      * intros acc acc' Hacc _ Hstep.
        destruct (crawl_dir_static_key frame_re anim_folder acc path subdir files_ f)
          as (acc'' & Hstep' & _ & _ & Hk); try done.
        rewrite Hstep in Hstep'. injection Hstep' as <-. by rewrite <- Hkey.
      * exact Hentry.
      * apply bundles_complete_empty.
      * done.
      * rewrite Hret in Hret'. by injection Hret' as <-.
  - exists ∅. split; [done|]. intros k. rewrite lookup_empty. split.
    + by intros [? ?].
    + intros (p & path & subdir & files_ & f & Hentry & _).
      apply walk_isdir in Hentry. congruence.
Qed.

(** X5: when no directory of the walk bears the name of the animation
    folder, every bundle of the crawl has an empty list of frames. *)
Theorem crawler_without_animation_folder (fs : disk) (target_dir : string)
    (frame_re : re.regex) (anim_folder : string) :
  (forall path subdir files_,
     (path, subdir, files_) ∈ os.walk fs target_dir ->
     String.eqb (os_path.basename path) anim_folder = false) ->
  exists cards,
    crawler fs target_dir frame_re anim_folder = Return cards /\
    forall k d, cards !! k = Some d -> animated d = Some [].
Proof.
  intros Hnone.
  destruct (crawl_walk_sources frame_re anim_folder (os.walk fs target_dir))
    as (cards & Hret & Hc & Hp).
  unfold crawler. destruct (os.path.isdir fs target_dir).
  - exists cards. split; [done|]. intros k d Hd.
    destruct (Hc k d Hd) as [_ [l Hl]]. destruct (Hp k d Hd) as [_ Ha].
    destruct l as [|p l]; [done|]. exfalso.
    destruct (Ha (p :: l) p Hl) as (path & subdir & files_ & f & Hentry & Hpath & _); [by left|].
    rewrite (Hnone _ _ _ Hentry) in Hpath. discriminate.
  - exists ∅. split; [done|]. intros k d. by rewrite lookup_empty.
Qed.

Lemma crawler_without_animation_folder_witness :
  exists cards,
    crawler {["/in/cards" := example_tree]} "/in/cards" underscore_digits "frames"
    = Return cards /\
    forall k d, cards !! k = Some d -> animated d = Some [].
Proof.
  apply (crawler_without_animation_folder {["/in/cards" := example_tree]} "/in/cards"
           underscore_digits "frames").
  intros path subdir files_ Hin. vm_compute in Hin.
  apply elem_of_cons in Hin as [[= -> _ _]|Hin]; [reflexivity|].
  apply elem_of_cons in Hin as [[= -> _ _]|Hin]; [reflexivity|].
  by apply elem_of_nil in Hin.
Defined.

(** ** The output folders of a card *)

Lemma folders_lookup (output_dir cls loc : string) (outputs : list string)
    (acc : gmap string string) (kind : string) :
  foldl (fun paths kind => <[kind := folder_of output_dir cls loc kind]> paths) acc outputs
    !! kind
  = if decide (kind ∈ outputs) then Some (folder_of output_dir cls loc kind) else acc !! kind.
Proof.
  revert acc. induction outputs as [|o outputs IH]; intros acc; cbn [foldl].
  - by rewrite decide_False by apply not_elem_of_nil.
  - rewrite IH. destruct (decide (kind ∈ outputs)) as [Hin|Hout].
    + rewrite decide_True; [done | by right].
    + destruct (decide (kind = o)) as [->|Hne].
      * rewrite decide_True by left. by rewrite lookup_insert_eq.
      * rewrite decide_False; [by rewrite lookup_insert_ne|].
        intros Hin. apply elem_of_cons in Hin as [?|?]; done.
Qed.

Section folders.

Variable os_makedirs : string -> gset string -> bool * gset string.

Lemma make_folders_eq (cls output_dir : string) (outputs : list string) (st : state)
    (acc : gmap string string) :
  output_paths (_info (self st)) = Some acc ->
  exists files',
    make_folders os_makedirs (Some cls) output_dir outputs st
    = (Return tt,
       mkState (with_paths (self st)
                  (foldl (fun paths kind =>
                            <[kind := folder_of output_dir cls (locale (self st)) kind]> paths)
                         acc outputs))
               (mkWorld files' (spawned (env st)))).
Proof.
  revert st acc. induction outputs as [|o outputs IH]; intros st acc Hacc.
  - exists (files (env st)). simpl. unfold mret, M_ret, with_paths.
    destruct st as [[cfg [s a p f] n l] [fs sp]]. simpl in *. by subst p.
  - cbn [make_folders].
    cbv [mbind M_bind lift property get_self try_makedirs set_output_path getitem set_info].
    destruct (os_makedirs (os_path.join_all output_dir [cls; locale (self st); o])
                (files (env st))) as [raised files1] eqn:Hmk.
    cbn [self env _info output_paths]. rewrite Hacc.
    cbn [self env _info _config name locale static animated ff_out spawned].
    match goal with
    | |- exists _, make_folders _ _ _ _ ?st1 = _ =>
        destruct (IH st1 (<[o := os_path.join_all output_dir [cls; locale (self st); o]]> acc))
          as (files' & ->); [done|]
    end.
    exists files'. done.
Qed.

Lemma make_output_folders_eq (cls output_dir : string) (cfg : Config.card_type)
    (st : state) :
  Config.card_types (_config (self st)) !! cls = Some cfg ->
  exists files' paths,
    _make_output_folders os_makedirs (Some cls) output_dir st
    = (Return tt,
       mkState (with_paths (self st) paths) (mkWorld files' (spawned (env st)))) /\
    paths = folders_of output_dir cls (locale (self st)) (Config.outputs cfg) /\
    forall kind,
      paths !! kind
      = if decide (kind ∈ Config.outputs cfg)
        then Some (os_path.join_all output_dir [cls; locale (self st); kind])
        else None.
Proof.
  intros Hcfg.
  cbv [_make_output_folders card_type_config mbind M_bind lift property
         get_self lookup_key set_info].
  rewrite Hcfg. cbn [self env].
  match goal with
  | |- exists _ _, make_folders _ _ _ _ ?st1 = _ /\ _ =>
      destruct (make_folders_eq cls output_dir (Config.outputs cfg) st1 ∅) as (files' & ->);
        [done|]
  end.
  exists files', (folders_of output_dir cls (locale (self st)) (Config.outputs cfg)).
  split; [done|]. split; [done|].
  intros kind. unfold folders_of. rewrite folders_lookup. by rewrite lookup_empty.
Qed.

(** X6: for a card class that has a record in the configuration,
    [_make_output_folders] returns whatever [os.makedirs] does, also when
    each call of it raises [OSError]; it leaves under ['output_paths'] the
    folder [output_dir/card_class/locale/kind] for each output kind of the
    class and nothing else, whatever was there before, keeps the other keys
    of [_info] and runs no command. *)
Theorem make_output_folders_records (cls output_dir : string) (cfg : Config.card_type)
    (st : state) :
  Config.card_types (_config (self st)) !! cls = Some cfg ->
  exists files' paths,
    _make_output_folders os_makedirs (Some cls) output_dir st
    = (Return tt,
       mkState (with_paths (self st) paths) (mkWorld files' (spawned (env st)))) /\
    paths = folders_of output_dir cls (locale (self st)) (Config.outputs cfg) /\
    forall kind,
      paths !! kind
      = if decide (kind ∈ Config.outputs cfg)
        then Some (os_path.join_all output_dir [cls; locale (self st); kind])
        else None.
Proof.
  intros Hcfg.
  cbv [_make_output_folders card_type_config mbind M_bind lift property
         get_self lookup_key set_info].
  rewrite Hcfg. cbn [self env].
  match goal with
  | |- exists _ _, make_folders _ _ _ _ ?st1 = _ /\ _ =>
      destruct (make_folders_eq cls output_dir (Config.outputs cfg) st1 ∅) as (files' & ->);
        [done|]
  end.
  exists files', (folders_of output_dir cls (locale (self st)) (Config.outputs cfg)).
  split; [done|]. split; [done|].
  intros kind. unfold folders_of. rewrite folders_lookup. by rewrite lookup_empty.
Qed.

End folders.

Lemma make_output_folders_records_witness :
  exists files' paths,
    _make_output_folders makedirs_raises (Some "cards") "/out"
      (mkState fresh_card (mkWorld ∅ []))
    = (Return tt,
       mkState (with_paths (self (mkState fresh_card (mkWorld ∅ []))) paths)
               (mkWorld files' (spawned (env (mkState fresh_card (mkWorld ∅ [])))))) /\
    paths = folders_of "/out" "cards" (locale (self (mkState fresh_card (mkWorld ∅ []))))
              (Config.outputs example_card_type) /\
    forall kind,
      paths !! kind
      = if decide (kind ∈ Config.outputs example_card_type)
        then Some (os_path.join_all "/out"
                     ["cards"; locale (self (mkState fresh_card (mkWorld ∅ []))); kind])
        else None.
Proof.
  apply (make_output_folders_records makedirs_raises "cards" "/out" example_card_type
           (mkState fresh_card (mkWorld ∅ []))).
  vm_compute. reflexivity.
Defined.

Example folders_of_example : folders_of "/out" "cards" "enUS" (Config.outputs example_card_type)
                             = example_paths.
Proof. vm_compute. reflexivity. Qed.

Section process_facts.

Variable os_makedirs : string -> gset string -> bool * gset string.
Variable shutil_copy2 : string -> string -> gset string -> option exn * gset string.

(** X7: [process] does nothing for a card whose class it cannot look up:
    on an instance of [BasicCard] itself it raises [NotImplementedError],
    on a card class without a record in the configuration it raises
    [KeyError] with the name of the class; in both cases the card, the
    files and the commands are as before. *)
Theorem process_unconfigured (cls : CardClass) (output_dir : string) (st : state) :
  (card_class cls = None ->
   process os_makedirs shutil_copy2 cls output_dir st = (Raise NotImplementedError, st)) /\
  (forall c, card_class cls = Some c ->
             Config.card_types (_config (self st)) !! c = None ->
             process os_makedirs shutil_copy2 cls output_dir st = (Raise (KeyError c), st)).
Proof.
  split.
  - intros Hc. unfold process, _make_output_folders, card_type_config.
    cbv [mbind M_bind lift property get_self lookup_key]. by rewrite Hc.
  - intros c Hc Hcfg. unfold process, _make_output_folders, card_type_config.
    cbv [mbind M_bind lift property get_self lookup_key]. by rewrite Hc, Hcfg.
Qed.

(** X8: once [_make_output_folders] has run, [_get_input_output] returns,
    for an output kind of the card class, the static path of the card and
    the path of its file name in the folder of that kind, and raises
    [KeyError] with the kind for any other kind; before, on a card as the
    crawler leaves it, it raises [KeyError] with [output_paths]. *)
Theorem get_input_output_after_folders (cls output_dir kind : string)
    (cfg : Config.card_type) (st : state) (input_ : string) :
  Config.card_types (_config (self st)) !! cls = Some cfg ->
  static (_info (self st)) = Some input_ ->
  ((_make_output_folders os_makedirs (Some cls) output_dir ≫=
      fun _ => _get_input_output kind) st).1
  = (if decide (kind ∈ Config.outputs cfg)
     then Return (input_,
                  os_path.join (os_path.join_all output_dir [cls; locale (self st); kind])
                               (os_path.basename input_))
     else Raise (KeyError kind)) /\
  (output_paths (_info (self st)) = None ->
   _get_input_output kind st = (Raise (KeyError "output_paths"), st)).
Proof.
  intros Hcfg Hs. split.
  - destruct (make_output_folders_eq os_makedirs cls output_dir cfg st Hcfg)
      as (files' & paths & Heq & _ & Hpaths).
    rewrite (M_bind_return _ _ _ _ _ Heq).
    set (st1 := mkState (with_paths (self st) paths) (mkWorld files' (spawned (env st)))).
    assert (static (_info (self st1)) = Some input_) as Hs1 by done.
    assert (output_paths (_info (self st1)) = Some paths) as Hp1 by done.
    clearbody st1. specialize (Hpaths kind).
    unfold _get_input_output. cbv [mbind M_bind getitem lift lookup_key mret M_ret].
    rewrite Hs1, Hp1, Hpaths.
    by destruct (decide (kind ∈ Config.outputs cfg)).
  - intros Hnone. unfold _get_input_output. cbv [mbind M_bind getitem].
    by rewrite Hs, Hnone.
Qed.

(** X9: for a card without a static path, of a card class with a record in
    the configuration, [process] raises [KeyError] with [static] out of the
    copy of the original: the output folders are recorded by then, nothing
    was copied and no command has run. *)
Theorem process_missing_static (cls : CardClass) (c output_dir : string)
    (cfg : Config.card_type) (st : state) :
  card_class cls = Some c ->
  Config.card_types (_config (self st)) !! c = Some cfg ->
  static (_info (self st)) = None ->
  exists files',
    process os_makedirs shutil_copy2 cls output_dir st
    = (Raise (KeyError "static"),
       mkState (with_paths (self st)
                  (folders_of output_dir c (locale (self st)) (Config.outputs cfg)))
               (mkWorld files' (spawned (env st)))) /\
    files' = (_make_output_folders os_makedirs (Some c) output_dir st).2.(env).(files).
Proof.
  intros Hc Hcfg Hs.
  destruct (make_output_folders_eq os_makedirs c output_dir cfg st Hcfg)
    as (files' & paths & Heq & -> & _).
  exists files'. unfold process. rewrite Hc, (M_bind_return _ _ _ _ _ Heq).
  split; [|by rewrite Heq].
  set (st1 := mkState _ _).
  assert (static (_info (self st1)) = None) as Hs1 by done.
  clearbody st1.
  unfold _cp_original. cbv [mbind M_bind getitem]. by rewrite Hs1.
Qed.

End process_facts.

Lemma get_input_output_after_folders_witness :
  ((_make_output_folders makedirs_raises (Some "cards") "/out" ≫=
      fun _ => _get_input_output "icons/small") (mkState fresh_card (mkWorld ∅ []))).1
  = (if decide ("icons/small" ∈ Config.outputs example_card_type)
     then Return ("/in/cards/A.png",
                  os_path.join
                    (os_path.join_all "/out"
                       ["cards"; locale (self (mkState fresh_card (mkWorld ∅ [])));
                        "icons/small"])
                    (os_path.basename "/in/cards/A.png"))
     else Raise (KeyError "icons/small")) /\
  (output_paths (_info (self (mkState fresh_card (mkWorld ∅ [])))) = None ->
   _get_input_output "icons/small" (mkState fresh_card (mkWorld ∅ []))
   = (Raise (KeyError "output_paths"), mkState fresh_card (mkWorld ∅ []))).
Proof.
  apply (get_input_output_after_folders makedirs_raises "cards" "/out" "icons/small"
           example_card_type (mkState fresh_card (mkWorld ∅ [])) "/in/cards/A.png").
  - vm_compute. reflexivity.
  - reflexivity.
Defined.

Lemma process_missing_static_witness :
  exists files',
    process makedirs_ok copy2_ok (SpecCards popen_ok "enUS") "/out"
      (mkState card_without_static (mkWorld ∅ []))
    = (Raise (KeyError "static"),
       mkState (with_paths (self (mkState card_without_static (mkWorld ∅ [])))
                  (folders_of "/out" "cards"
                     (locale (self (mkState card_without_static (mkWorld ∅ []))))
                     (Config.outputs example_card_type)))
               (mkWorld files' (spawned (env (mkState card_without_static (mkWorld ∅ [])))))) /\
    files' = (_make_output_folders makedirs_ok (Some "cards") "/out"
                (mkState card_without_static (mkWorld ∅ []))).2.(env).(files).
Proof.
  apply (process_missing_static makedirs_ok copy2_ok (SpecCards popen_ok "enUS") "cards" "/out"
           example_card_type (mkState card_without_static (mkWorld ∅ []))).
  - reflexivity.
  - vm_compute. reflexivity.
  - reflexivity.
Defined.

(** ** What a stage leaves of the state *)

Section stage_state.

Variable popen : string -> gset string -> (Z * string * string) * gset string.
Variable card_class : option string.

Lemma prepared_stage_state {X : Type} (cls : error_class) (prep : M X)
    (command : X -> string) (body : X -> M (Z * string * string)) (st : state) :
  (forall x st', body x st' = run_checked popen cls (command x) st') ->
  (exists x, prep st = (Return x, st)) \/
    (exists e, prep st = (Raise e, st) /\ not_stage_error (@Raise (option (Z * string * string)) e)) ->
  ((Some <$> (prep ≫= body)) st).2 = st \/
  exists cmd files', ((Some <$> (prep ≫= body)) st).2 = after_command st cmd files'.
Proof.
  intros Hbody [(x & Hprep)|(e & Hprep & _)].
  - right. exists (command x), (popen (command x) (files (env st))).2.
    destruct (popen (command x) (files (env st))) as [[[rc o] e] files'] eqn:Hrun.
    unfold fmap, M_fmap. rewrite (M_bind_return _ _ _ _ _ Hprep), Hbody.
    rewrite (run_checked_eq popen cls _ st rc o e files' Hrun).
    by destruct (bool_decide (rc ≠ 0)).
  - left. unfold fmap, M_fmap. by rewrite (M_bind_raise _ _ _ _ _ Hprep).
Qed.

Lemma animated_png_state (st : state) :
  (_make_animated_png popen st).2 = st \/
  exists cmd files', (_make_animated_png popen st).2 = after_command st cmd files'.
Proof.
  unfold _make_animated_png, _make_animated_png_cmd.
  destruct (animated (_info (self st))) as [frames|] eqn:Hfr.
  2:{ left. unfold mbind, M_bind, getitem. by rewrite Hfr. }
  assert (getitem animated "animated" st = (Return frames, st)) as Hget.
  { unfold getitem. by rewrite Hfr. }
  rewrite (M_bind_return _ _ _ _ _ Hget).
  case_bool_decide as Hne; [|by left].
  destruct (get_input_output_cases "animated" st)
    as [(input_ & paths & dir & _ & _ & _ & Hprep)|(key & Hprep)].
  2:{ left. by rewrite (M_bind_raise _ _ _ _ _ Hprep). }
  right. rewrite (M_bind_return _ _ _ _ _ Hprep). cbn beta iota zeta.
  rewrite (M_bind_return _ _ _ _ _ (M_bind_return _ _ _ _ _ Hget)).
  set (cmd := foldl _ _ frames).
  exists cmd, (popen cmd (files (env st))).2.
  destruct (popen cmd (files (env st))) as [[[rc o] e] files'] eqn:Hrun.
  unfold mbind at 1, M_bind at 1, run_cmd. rewrite Hrun.
  by destruct (bool_decide (rc ≠ 0)).
Qed.

Lemma animated_gif_state (st : state) :
  (_make_animated_gif popen st).2 = st \/
  exists cmd files', (_make_animated_gif popen st).2 = after_command st cmd files'.
Proof.
  destruct (container_of st) as [container|] eqn:Hc.
  - right. exists (loop_command container).
    destruct (popen (loop_command container) (files (env st)))
      as [[[rc o] e] files'] eqn:Hrun.
    rewrite (animated_gif_eq popen st container rc o e files' Hc Hrun).
    destruct (bool_decide (rc ≠ 0)); [by eexists|].
    destruct (bool_decide (container ∈ files')); by eexists.
  - left. destruct (animated_gif_no_container popen st Hc) as (key & ->). done.
Qed.

End stage_state.

(** X10: no stage touches the card: whatever it returns or raises, a stage
    leaves the state as it found it, or as it found it but for the files and
    for one more command line; so the configuration, the name, the locale
    and every key of [_info] of the card are as before. *)
Theorem stage_keeps_card
    (popen : string -> gset string -> (Z * string * string) * gset string)
    (card_class : option string) (s : stage) (st : state) :
  ((run_stage popen card_class s st).2 = st \/
   exists cmd files', (run_stage popen card_class s st).2 = after_command st cmd files') /\
  self (run_stage popen card_class s st).2 = self st.
Proof.
  assert ((run_stage popen card_class s st).2 = st \/
          exists cmd files', (run_stage popen card_class s st).2 = after_command st cmd files')
    as H.
  { destruct s; simpl.
    - apply (prepared_stage_state popen MakeMediumCopyError (_get_input_output "medium")
               (fun x => _make_medium_copy_cmd x.1 x.2));
        [by intros [i o] st' | apply get_input_output_prep].
    - apply (prepared_stage_state popen MakeSmallCopyError (_get_input_output "small")
               (fun x => _make_small_copy_cmd x.1 x.2));
        [by intros [i o] st' | apply get_input_output_prep].
    - apply (prepared_stage_state popen MakeJpgCopyError (_get_input_output "mediumj")
               (fun x => _make_jpg_copy_cmd x.1 ((os_path.splitext x.2).1 +:+ ".jpg")));
        [|apply get_input_output_prep].
      intros [i o] st'. simpl. by destruct (os_path.splitext o).
    - apply (prepared_stage_state popen MakeSmallIconError (_get_input_output "icons/small")
               (fun x => _make_small_icons_cmd x.1 x.2));
        [by intros [i o] st' | apply get_input_output_prep].
    - apply (prepared_stage_state popen MakeMediumIconError (_get_input_output "icons/medium")
               (fun x => _make_medium_icons_cmd x.1 x.2));
        [by intros [i o] st' | apply get_input_output_prep].
    - apply (prepared_stage_state popen MakeLargeIconError (_get_input_output "icons/large")
               (fun x => _make_large_icons_cmd x.1 x.2));
        [by intros [i o] st' | apply get_input_output_prep].
    - apply animated_png_state.
    - rewrite M_fmap_state. apply animated_gif_state.
    - apply (prepared_stage_state popen MakeMP4Error (_web_format_prep card_class "mp4")
               (fun x => _make_mp4_cmd x.1 x.2));
        [by intros [i o] st' | apply web_format_prep_prep].
    - apply (prepared_stage_state popen MakeWEBMError (_web_format_prep card_class "webm")
               (fun x => _make_webm_cmd x.1 x.2));
        [by intros [i o] st' | apply web_format_prep_prep]. }
  split; [exact H|]. by destruct H as [->|(cmd & files' & ->)].
Qed.

(** ** The animated container *)

Lemma append_assoc (a b c : string) : (a +:+ b) +:+ c = a +:+ b +:+ c.
Proof. induction a as [|x a IH]; [done|]. rewrite !append_cons. by rewrite IH. Qed.

Lemma frames_command (prefix first_ : string) (rest : list string) :
  foldl (fun cmd file_ => cmd +:+ file_ +:+ " ") (prefix +:+ first_ +:+ " ") rest
  = prefix +:+ String.concat " " (first_ :: rest) +:+ " ".
Proof.
  revert prefix first_. induction rest as [|y rest IH]; intros prefix first_; [done|].
  cbn [foldl]. rewrite (IH (prefix +:+ first_ +:+ " ") y).
  change (String.concat " " (first_ :: y :: rest))
    with (first_ +:+ " " +:+ String.concat " " (y :: rest)).
  by rewrite !append_assoc.
Qed.

(** X11: on a card with frames that names its container, the stage of the
    animated container runs one command: [apngasm], the container, then
    every frame of the bundle in the order of the bundle, separated by one
    blank and followed by one; the container is the file the animated-loop
    stage reads and removes. *)
Theorem animated_png_command
    (popen : string -> gset string -> (Z * string * string) * gset string)
    (st : state) (container : string) (frames : list string) :
  container_of st = Some container ->
  animated (_info (self st)) = Some frames ->
  frames <> [] ->
  spawned (env (_make_animated_png popen st).2)
  = spawned (env st) ++ [String.concat " " ("apngasm" :: container :: frames) +:+ " "] /\
  (forall rc o e files',
     popen (loop_command container) (files (env st)) = ((rc, o, e), files') ->
     spawned (env (_make_animated_gif popen st).2)
     = spawned (env st) ++ [_make_animated_gif_cmd container
                              ((os_path.splitext container).1 +:+ ".gif")]).
Proof.
  intros Hc Hfr Hne. split.
  - unfold _make_animated_png, _make_animated_png_cmd.
    assert (getitem animated "animated" st = (Return frames, st)) as Hget.
    { unfold getitem. by rewrite Hfr. }
    rewrite (M_bind_return _ _ _ _ _ Hget). rewrite bool_decide_eq_true_2 by done.
    unfold container_of in Hc.
    destruct (get_input_output_cases "animated" st)
      as [(input_ & paths & dir & Hs & Hp & Hd & Hprep)|(key & Hprep)].
    2:{ unfold _get_input_output, mbind, M_bind, getitem, lift, lookup_key in Hprep.
        destruct (static (_info (self st))); [|done].
        destruct (output_paths (_info (self st))) as [paths|]; [|done].
        by destruct (paths !! "animated"). }
    rewrite Hs, Hp, Hd in Hc. injection Hc as <-.
    rewrite (M_bind_return _ _ _ _ _ Hprep). cbn beta iota zeta.
    rewrite (M_bind_return _ _ _ _ _ (M_bind_return _ _ _ _ _ Hget)).
    rewrite (frames_command "apngasm " (os_path.join dir (os_path.basename input_)) frames).
    set (cmd := "apngasm " +:+ _).
    destruct (popen cmd (files (env st))) as [[[rc o] e] files'] eqn:Hrun.
    unfold mbind at 1, M_bind at 1, run_cmd. rewrite Hrun.
    by destruct (bool_decide (rc ≠ 0)).
  - intros rc o e files' Hrun.
    rewrite (animated_gif_eq popen st container rc o e files' Hc Hrun).
    destruct (bool_decide (rc ≠ 0)); [done|].
    by destruct (bool_decide (container ∈ files')).
Qed.

(** X12: on a card whose list of frames is empty, the stage of the animated
    container returns [None] and leaves the state as it is, also when the
    card has no static path and no output folders; without the key
    [animated] it raises [KeyError]. *)
Theorem animated_png_without_frames
    (popen : string -> gset string -> (Z * string * string) * gset string) (st : state) :
  (animated (_info (self st)) = Some [] ->
   _make_animated_png popen st = (Return None, st)) /\
  (animated (_info (self st)) = None ->
   _make_animated_png popen st = (Raise (KeyError "animated"), st)).
Proof.
  split; intros Hfr; unfold _make_animated_png, mbind, M_bind, getitem; by rewrite Hfr.
Qed.

Lemma animated_png_command_witness :
  spawned (env (_make_animated_png popen_ok (mkState two_frame_card (mkWorld ∅ []))).2)
  = spawned (env (mkState two_frame_card (mkWorld ∅ [])))
    ++ [String.concat " "
          ("apngasm" :: "/out/cards/enUS/animated/A.png"
             :: ["/in/cards/anim/A_0001.png"; "/in/cards/anim/A_0002.png"]) +:+ " "] /\
  (forall rc o e files',
     popen_ok (loop_command "/out/cards/enUS/animated/A.png")
       (files (env (mkState two_frame_card (mkWorld ∅ [])))) = ((rc, o, e), files') ->
     spawned (env (_make_animated_gif popen_ok (mkState two_frame_card (mkWorld ∅ []))).2)
     = spawned (env (mkState two_frame_card (mkWorld ∅ [])))
       ++ [_make_animated_gif_cmd "/out/cards/enUS/animated/A.png"
             ((os_path.splitext "/out/cards/enUS/animated/A.png").1 +:+ ".gif")]).
Proof.
  apply (animated_png_command popen_ok (mkState two_frame_card (mkWorld ∅ []))
           "/out/cards/enUS/animated/A.png"
           ["/in/cards/anim/A_0001.png"; "/in/cards/anim/A_0002.png"]).
  - vm_compute. reflexivity.
  - reflexivity.
  - discriminate.
Defined.

Example animated_png_command_of_two_frames :
  spawned (env (_make_animated_png popen_ok (mkState two_frame_card (mkWorld ∅ []))).2)
  = ["apngasm /out/cards/enUS/animated/A.png /in/cards/anim/A_0001.png /in/cards/anim/A_0002.png "].
Proof. vm_compute. reflexivity. Qed.

(** ** Patterns that do not match *)

Lemma sub_without_match (r : re.regex) (repl s : string) :
  re.search r s 0 = None -> re.sub r repl s = s.
Proof. intros Hs. unfold re.sub. simpl. by rewrite Hs. Qed.

Lemma split_without_match (r : re.regex) (s : string) :
  re.search r s 0 = None -> re.split r s = [s].
Proof. intros Hs. unfold re.split. simpl. by rewrite Hs. Qed.

Lemma take_all (s : string) : Py.take (String.length s) s = s.
Proof. induction s as [|a s IH]; [done|]. simpl. by rewrite IH. Qed.

Lemma split_loop_head (fuel : nat) (r : re.regex) (s : string) (start : nat) :
  exists n rest, re.split_loop fuel r s 0 start = Py.take n s :: rest.
Proof.
  revert start. induction fuel as [|fuel IH]; intros start; cbn [re.split_loop].
  - exists (String.length s), []. by rewrite take_all.
  - destruct (re.search r s start) as [[b e]|].
    + destruct (b =? e)%nat.
      * destruct (0 =? String.length s)%nat; [|apply IH].
        exists (String.length s), []. by rewrite take_all.
      * eexists b, _. unfold Py.slice. simpl. by rewrite Nat.sub_0_r.
    + exists (String.length s), []. by rewrite take_all.
Qed.

(** X13: the key of a frame file is a prefix of its name without extension,
    and it is that whole name when the frame pattern matches nowhere in it,
    so a file of the animation folder that is named like the static file
    joins the bundle of the static file. *)
Theorem frame_key_prefix (frame_re : re.regex) (file_ : string) :
  (exists rest, (os_path.splitext file_).1 = frame_key frame_re file_ +:+ rest) /\
  (re.search frame_re (os_path.splitext file_).1 0 = None ->
   frame_key frame_re file_ = (os_path.splitext file_).1).
Proof.
  unfold frame_key. split.
  - destruct (split_loop_head (2 + String.length (os_path.splitext file_).1) frame_re
                (os_path.splitext file_).1 0) as (n & rest & Hsplit).
    unfold re.split. rewrite Hsplit.
    exists (Py.drop n (os_path.splitext file_).1). by rewrite take_drop.
  - intros Hs. by rewrite split_without_match.
Qed.

(** X14: when the frame pattern matches nowhere in the path of the first
    prepared frame, the web encodes are given that very path as their input
    pattern. *)
Theorem web_pattern_without_match
    (card_class : option string) (fext : string) (st : state) (f : string)
    (rest : list string) (cls : string) (cfg : Config.card_type) (input_ : string)
    (paths : gmap string string) (dir : string) :
  ff_out (_info (self st)) = Some (f :: rest) ->
  card_class = Some cls ->
  Config.card_types (_config (self st)) !! cls = Some cfg ->
  static (_info (self st)) = Some input_ ->
  output_paths (_info (self st)) = Some paths ->
  paths !! "animated" = Some dir ->
  re.search (Config.frame_re cfg) (os_path.splitext f).1 0 = None ->
  _web_format_prep card_class fext st
  = (Return (f,
             (os_path.splitext (os_path.join dir (os_path.basename input_))).1
               +:+ "." +:+ fext),
     st).
Proof.
  intros Hff Hcls Hcfg Hs Hp Hdir Hsearch.
  rewrite (web_format_prep_eq card_class fext st f rest cls cfg input_ paths dir
             Hff Hcls Hcfg Hs Hp Hdir).
  by rewrite sub_without_match, splitext_parts.
Qed.

Lemma web_pattern_without_match_witness :
  _web_format_prep (Some "cards") "webm" (mkState unnumbered_card (mkWorld ∅ []))
  = (Return ("/tmp/animation_temp/ff_A.png",
             (os_path.splitext
                (os_path.join "/out/cards/enUS/animated" (os_path.basename "/in/cards/A.png"))).1
               +:+ "." +:+ "webm"),
     mkState unnumbered_card (mkWorld ∅ [])).
Proof.
  apply (web_pattern_without_match (Some "cards") "webm"
           (mkState unnumbered_card (mkWorld ∅ []))
           "/tmp/animation_temp/ff_A.png" [] "cards" example_card_type "/in/cards/A.png"
           example_paths "/out/cards/enUS/animated").
  - reflexivity.
  - reflexivity.
  - vm_compute. reflexivity.
  - reflexivity.
  - reflexivity.
  - vm_compute. reflexivity.
  - vm_compute. reflexivity.
Defined.

(** ** Finding the cards *)

Lemma for_each_accumulate {A B : Type} (g : A -> result (list B))
    (body : list B -> A -> result (list B)) :
  (forall acc x, body acc x = new ← g x; Return (acc ++ new)) ->
  forall l acc,
    for_each body l acc = found ← for_each body l []; Return (acc ++ found).
Proof.
  intros Hbody l. induction l as [|x l IH]; intros acc.
  - simpl. by rewrite app_nil_r.
  - rewrite !for_each_cons, !Hbody. destruct (g x) as [new|e]; [|done].
    rewrite !bind_return. rewrite (IH (acc ++ new)), (IH ([] ++ new)).
    destruct (for_each body l []) as [found|e]; [|done].
    rewrite !bind_return. by rewrite app_assoc.
Qed.

Section finding.

Variables Cards CardBacks Heroes : CardClass.
Variable fs : disk.
Variable config : Config.t.
Variable input_path : string.

(** X15: [get_card_instances] takes the card types one by one: what it
    returns for a list of card types is what it returns for a first part
    of the list followed by what it returns for the rest, and it raises
    what the first of the two raises, or else what the second raises. *)
Theorem get_card_instances_app (types1 types2 : list string) :
  get_card_instances Cards CardBacks Heroes fs (types1 ++ types2) config input_path
  = (found1 ← get_card_instances Cards CardBacks Heroes fs types1 config input_path;
     found2 ← get_card_instances Cards CardBacks Heroes fs types2 config input_path;
     Return (found1 ++ found2)).
Proof.
  unfold get_card_instances. rewrite for_each_app.
  match goal with
  | |- for_each ?body _ _ ≫= _ = _ =>
      destruct (for_each body types1 []) as [found1|e]; [|done];
      rewrite !bind_return;
      apply (for_each_accumulate
               (fun card_type => body [] card_type) body)
  end.
  intros acc card_type.
  destruct (if String.eqb card_type "heroes" then Some Heroes
            else if String.eqb card_type "cardbacks" then Some CardBacks
            else if String.eqb card_type "cards" then Some Cards else None)
    as [obj|] eqn:Hobj.
  - destruct (property (card_class obj)) as [c|e]; [|done]. rewrite !bind_return.
    destruct (lookup_key (Config.card_types config) c) as [cfg|e]; [|done].
    rewrite !bind_return.
    destruct (crawl_for_this_card_class fs obj config
                (os_path.join input_path (Config.unity_folder cfg))) as [card_dict|e];
      [|done].
    rewrite !bind_return.
    by destruct (create_instances obj config card_dict) as [new|e].
  - by rewrite bind_return, app_nil_r.
Qed.

(** X16: a card type other than [cards], [cardbacks] and [heroes] is passed
    over in silence: a list of such card types yields no instance, and
    [execute_pool] then returns the empty list with the files and commands
    as they were; with a number of processes below one, [execute_pool]
    raises [ValueError] once the cards are found, and runs nothing. *)
Theorem execute_pool_without_work
    (os_makedirs : string -> gset string -> bool * gset string)
    (shutil_copy2 : string -> string -> gset string -> option exn * gset string)
    (card_types : list string) (output_path : string) (w : world) :
  ((forall t, t ∈ card_types -> t <> "cards" /\ t <> "cardbacks" /\ t <> "heroes") ->
   get_card_instances Cards CardBacks Heroes fs card_types config input_path = Return [] /\
   (1 <= Config.processes config ->
    execute_pool os_makedirs shutil_copy2 Cards CardBacks Heroes fs card_types config
      input_path output_path None w = (Return [], w))) /\
  (forall instances n,
     get_card_instances Cards CardBacks Heroes fs card_types config input_path
     = Return instances ->
     n < 1 -> n <> 0 ->
     execute_pool os_makedirs shutil_copy2 Cards CardBacks Heroes fs card_types config
       input_path output_path (Some n) w = (Raise ValueError, w)) /\
  (forall instances,
     get_card_instances Cards CardBacks Heroes fs card_types config input_path
     = Return instances ->
     Config.processes config < 1 ->
     execute_pool os_makedirs shutil_copy2 Cards CardBacks Heroes fs card_types config
       input_path output_path (Some 0) w = (Raise ValueError, w) /\
     execute_pool os_makedirs shutil_copy2 Cards CardBacks Heroes fs card_types config
       input_path output_path None w = (Raise ValueError, w)).
Proof.
  split; [|split].
  - intros Hunknown.
    assert (get_card_instances Cards CardBacks Heroes fs card_types config input_path
            = Return []) as Hget.
    { unfold get_card_instances.
      induction card_types as [|t types IH]; [done|].
      destruct (Hunknown t) as (H1 & H2 & H3); [by left|].
      rewrite for_each_cons.
      apply String.eqb_neq in H1, H2, H3. rewrite H1, H2, H3, bind_return.
      apply IH. intros t' Ht'. apply Hunknown. by right. }
    split; [done|]. intros Hproc. unfold execute_pool. rewrite Hget.
    by rewrite bool_decide_eq_false_2 by lia.
  - intros instances n Hget Hn Hn0. unfold execute_pool. rewrite Hget.
    rewrite (bool_decide_eq_false_2 (n = 0)) by done.
    by rewrite bool_decide_eq_true_2.
  - intros instances Hget Hproc. unfold execute_pool. rewrite Hget.
    rewrite (bool_decide_eq_true_2 (0 = 0)) by done.
    by rewrite bool_decide_eq_true_2.
Qed.

End finding.

(** ** The folders of the program *)

Lemma bt_literal (w : string) (pos : nat) (s : string) (k : nat -> string -> option nat) :
  re.bt (literal w) pos s k
  = if String.prefix w s then k (pos + String.length w)%nat (Py.drop (String.length w) s)
    else None.
Proof.
  revert pos s. induction w as [|c w IH]; intros pos s.
  - simpl. rewrite Nat.add_0_r. by destruct s.
  - destruct s as [|a s]; [done|]. cbn [literal re.bt String.prefix String.length Py.drop].
    destruct (ascii_dec c a) as [->|Hne].
    + rewrite Ascii.eqb_refl, IH. by rewrite Nat.add_succ_r.
    + rewrite (proj2 (Ascii.eqb_neq a c)); [done | congruence].
Qed.

Lemma search_at_skips (r : re.regex) (skipped rest : string) (pos : nat) :
  (forall i, (i < String.length skipped)%nat ->
             re.match_at r (pos + i) (Py.drop i (skipped +:+ rest)) = None) ->
  re.search_at r pos (skipped +:+ rest) = re.search_at r (pos + String.length skipped) rest.
Proof.
  revert pos. induction skipped as [|a skipped IH]; intros pos Hnone.
  - simpl. by rewrite Nat.add_0_r.
  - rewrite append_cons. cbn [re.search_at].
    pose proof (Hnone 0%nat ltac:(simpl; lia)) as H0.
    rewrite Nat.add_0_r in H0. cbn [Py.drop] in H0. rewrite append_cons in H0. rewrite H0.
    rewrite IH.
    + simpl. by rewrite Nat.add_succ_r.
    + intros i Hi. specialize (Hnone (S i) ltac:(simpl; lia)).
      rewrite append_cons in Hnone. cbn [Py.drop] in Hnone.
      by rewrite Nat.add_succ_r in Hnone.
Qed.

Lemma take_length_app (p s : string) : Py.take (String.length p) (p +:+ s) = p.
Proof. induction p as [|a p IH]; [by destruct s|]. rewrite append_cons. simpl. by rewrite IH. Qed.

Lemma prefix_app (w s : string) : String.prefix w (w +:+ s) = true.
Proof.
  induction w as [|c w IH]; [by destruct s|].
  rewrite append_cons. simpl. by destruct (ascii_dec c c).
Qed.

(** The part of a path before the first place where [python] stands. *)
Lemma module_folder_root (src_file root rest : string) :
  src_file = root +:+ "python" +:+ rest ->
  (forall i, (i < String.length root)%nat ->
             String.prefix "python" (Py.drop i src_file) = false) ->
  module_folder src_file = Return root.
Proof.
  intros -> Hfirst. unfold module_folder, re.split.
  assert (re.search (literal "python") (root +:+ "python" +:+ rest) 0
          = Some (String.length root, (String.length root + 6)%nat)) as Hsearch.
  { unfold re.search. cbn [Nat.leb Py.drop].
    rewrite search_at_skips.
    - cbn [Nat.add]. destruct ("python" +:+ rest) as [|a tl] eqn:E; [done|].
      cbn [re.search_at]. unfold re.match_at. rewrite bt_literal, <- E, prefix_app. done.
    - intros i Hi. unfold re.match_at. rewrite bt_literal. by rewrite Hfirst. }
  cbn [Nat.add re.split_loop]. rewrite Hsearch.
  rewrite (proj2 (Nat.eqb_neq _ _)) by lia.
  unfold Py.slice. cbn [Py.drop first]. by rewrite Nat.sub_0_r, take_length_app.
Qed.

(** X17: the folder named by the environment variable, when it is set and
    not empty, is where the background of a card class is looked for,
    wherever the program is installed; the configuration file named by its
    variable is used likewise. *)
Theorem folders_from_environment (getenv : string -> option string) (src_file : string)
    (cls : string) (cfg : Config.card_type) (st : state) :
  Config.card_types (_config (self st)) !! cls = Some cfg ->
  (forall folder, getenv "BACKGROUNDS_FOLDER" = Some folder -> folder <> EmptyString ->
     _get_bg_path getenv src_file (Some cls) st
     = (Return (os_path.join folder (Config.composite cfg)), st)) /\
  (forall path, getenv "CARDCONVERT_CONFIG" = Some path -> path <> EmptyString ->
     get_config_path getenv src_file = Return path).
Proof.
  intros Hcfg. split.
  - intros folder Henv Hne. unfold _get_bg_path, card_type_config.
    cbv [mbind M_bind lift property get_self lookup_key mret M_ret].
    rewrite Hcfg, Henv. by destruct folder.
  - intros path Henv Hne. unfold get_config_path. rewrite Henv. by destruct path.
Qed.

Lemma folders_from_environment_witness :
  (forall folder, getenv_set "BACKGROUNDS_FOLDER" = Some folder -> folder <> EmptyString ->
     _get_bg_path getenv_set "/opt/CardConvert/python/CardConvert/cards/base.py" (Some "cards")
       (mkState fresh_card (mkWorld ∅ []))
     = (Return (os_path.join folder (Config.composite example_card_type)),
        mkState fresh_card (mkWorld ∅ []))) /\
  (forall path, getenv_set "CARDCONVERT_CONFIG" = Some path -> path <> EmptyString ->
     get_config_path getenv_set "/opt/CardConvert/python/CardConvert/cards/base.py"
     = Return path).
Proof.
  apply (folders_from_environment getenv_set
           "/opt/CardConvert/python/CardConvert/cards/base.py" "cards" example_card_type
           (mkState fresh_card (mkWorld ∅ []))).
  vm_compute. reflexivity.
Defined.

(** X18: with the environment variables unset or empty, the background is
    looked for under [backgrounds] and the configuration under [config] in
    one and the same folder: the part of the path of the running module
    before the first place where [python] stands in it. *)
Theorem folders_from_install_location (getenv : string -> option string)
    (src_file root rest cls : string) (cfg : Config.card_type) (st : state) :
  src_file = root +:+ "python" +:+ rest ->
  (forall i, (i < String.length root)%nat ->
             String.prefix "python" (Py.drop i src_file) = false) ->
  Config.card_types (_config (self st)) !! cls = Some cfg ->
  (unset (getenv "BACKGROUNDS_FOLDER") = true ->
   _get_bg_path getenv src_file (Some cls) st
   = (Return (os_path.join (os_path.join root "backgrounds") (Config.composite cfg)), st)) /\
  (unset (getenv "CARDCONVERT_CONFIG") = true ->
   get_config_path getenv src_file
   = Return (os_path.join_all root ["config"; "CardConvert.yaml"])).
Proof.
  intros Hsrc Hfirst Hcfg.
  pose proof (module_folder_root src_file root rest Hsrc Hfirst) as Hroot.
  split.
  - intros Henv. unfold _get_bg_path, card_type_config.
    cbv [mbind M_bind lift property get_self lookup_key mret M_ret].
    by rewrite Hcfg, Henv, Hroot.
  - intros Henv. unfold get_config_path. by rewrite Henv, Hroot.
Qed.

Lemma folders_from_install_location_witness :
  (unset (getenv_none "BACKGROUNDS_FOLDER") = true ->
   _get_bg_path getenv_none "/opt/CardConvert/python/CardConvert/cards/base.py" (Some "cards")
     (mkState fresh_card (mkWorld ∅ []))
   = (Return (os_path.join (os_path.join "/opt/CardConvert/" "backgrounds")
                (Config.composite example_card_type)),
      mkState fresh_card (mkWorld ∅ []))) /\
  (unset (getenv_none "CARDCONVERT_CONFIG") = true ->
   get_config_path getenv_none "/opt/CardConvert/python/CardConvert/cards/base.py"
   = Return (os_path.join_all "/opt/CardConvert/" ["config"; "CardConvert.yaml"])).
Proof.
  apply (folders_from_install_location getenv_none
           "/opt/CardConvert/python/CardConvert/cards/base.py" "/opt/CardConvert/"
           "/CardConvert/cards/base.py" "cards" example_card_type
           (mkState fresh_card (mkWorld ∅ []))).
  - reflexivity.
  - intros i Hi. simpl in Hi.
    do 17 (destruct i as [|i]; [reflexivity|]). lia.
  - vm_compute. reflexivity.
Defined.

Example bg_path_of_install :
  (_get_bg_path getenv_none "/opt/CardConvert/python/CardConvert/cards/base.py" (Some "cards")
     (mkState fresh_card (mkWorld ∅ []))).1
  = Return "/opt/CardConvert/backgrounds/bg.png".
Proof. vm_compute. reflexivity. Qed.

(** ** The copy of the original *)

(** X19: the original is copied to [output_dir/card_class/locale/original],
    a path that [_cp_original] builds by itself: it is the folder recorded
    for the output kind [original] when the card class has that kind, and it
    is the destination all the same when the class has not, in which case
    no folder was made for it. *)
Theorem cp_original_destination
    (os_makedirs : string -> gset string -> bool * gset string)
    (shutil_copy2 : string -> string -> gset string -> option exn * gset string)
    (cls output_dir : string) (cfg : Config.card_type) (st : state) (input_ : string) :
  Config.card_types (_config (self st)) !! cls = Some cfg ->
  static (_info (self st)) = Some input_ ->
  exists st1 paths,
    _make_output_folders os_makedirs (Some cls) output_dir st = (Return tt, st1) /\
    output_paths (_info (self st1)) = Some paths /\
    _cp_original shutil_copy2 (Some cls) output_dir st1
    = copy2 shutil_copy2 input_
        (os_path.join_all output_dir [cls; locale (self st); "original"]) st1 /\
    paths !! "original"
    = if decide ("original" ∈ Config.outputs cfg)
      then Some (os_path.join_all output_dir [cls; locale (self st); "original"])
      else None.
Proof.
  intros Hcfg Hs.
  destruct (make_output_folders_eq os_makedirs cls output_dir cfg st Hcfg)
    as (files' & paths & Heq & _ & Hpaths).
  eexists _, paths. split; [exact Heq|]. split; [done|]. split; [|apply Hpaths].
  set (st1 := mkState _ _).
  assert (static (_info (self st1)) = Some input_) as Hs1 by done.
  assert (locale (self st1) = locale (self st)) as Hl1 by done.
  clearbody st1.
  unfold _cp_original. cbv [mbind M_bind getitem lift property get_self].
  by rewrite Hs1, Hl1.
Qed.

Lemma cp_original_destination_witness :
  exists st1 paths,
    _make_output_folders makedirs_ok (Some "cards") "/out" (mkState fresh_card (mkWorld ∅ []))
    = (Return tt, st1) /\
    output_paths (_info (self st1)) = Some paths /\
    _cp_original copy2_ok (Some "cards") "/out" st1
    = copy2 copy2_ok "/in/cards/A.png"
        (os_path.join_all "/out"
           ["cards"; locale (self (mkState fresh_card (mkWorld ∅ []))); "original"]) st1 /\
    paths !! "original"
    = if decide ("original" ∈ Config.outputs example_card_type)
      then Some (os_path.join_all "/out"
                   ["cards"; locale (self (mkState fresh_card (mkWorld ∅ []))); "original"])
      else None.
Proof.
  apply (cp_original_destination makedirs_ok copy2_ok "cards" "/out" example_card_type
           (mkState fresh_card (mkWorld ∅ [])) "/in/cards/A.png").
  - vm_compute. reflexivity.
  - reflexivity.
Defined.

(** ** Instances of the statements on cards that are not processed *)

Lemma process_unconfigured_witness :
  process makedirs_ok copy2_ok BasicCard_class "/out" (mkState fresh_card (mkWorld ∅ []))
  = (Raise NotImplementedError, mkState fresh_card (mkWorld ∅ [])) /\
  process makedirs_ok copy2_ok (SpecCards popen_ok "enUS") "/out"
    (mkState unconfigured_card (mkWorld ∅ []))
  = (Raise (KeyError "cards"), mkState unconfigured_card (mkWorld ∅ [])).
Proof.
  split.
  - apply (proj1 (process_unconfigured makedirs_ok copy2_ok BasicCard_class "/out"
                    (mkState fresh_card (mkWorld ∅ [])))).
    reflexivity.
  - apply (proj2 (process_unconfigured makedirs_ok copy2_ok (SpecCards popen_ok "enUS") "/out"
                    (mkState unconfigured_card (mkWorld ∅ []))) "cards").
    + reflexivity.
    + vm_compute. reflexivity.
Defined.

Lemma animated_png_without_frames_witness :
  _make_animated_png popen_ok (mkState fresh_card (mkWorld ∅ []))
  = (Return None, mkState fresh_card (mkWorld ∅ [])) /\
  _make_animated_png popen_ok (mkState card_without_animated (mkWorld ∅ []))
  = (Raise (KeyError "animated"), mkState card_without_animated (mkWorld ∅ [])).
Proof.
  split.
  - apply (proj1 (animated_png_without_frames popen_ok (mkState fresh_card (mkWorld ∅ [])))).
    reflexivity.
  - apply (proj2 (animated_png_without_frames popen_ok
                    (mkState card_without_animated (mkWorld ∅ [])))).
    reflexivity.
Defined.

Lemma frame_key_prefix_witness :
  frame_key underscore_digits "A.png" = (os_path.splitext "A.png").1 /\
  exists rest, (os_path.splitext "A_0001.png").1 = frame_key underscore_digits "A_0001.png" +:+ rest.
Proof.
  split.
  - apply (proj2 (frame_key_prefix underscore_digits "A.png")).
    vm_compute. reflexivity.
  - apply (proj1 (frame_key_prefix underscore_digits "A_0001.png")).
Defined.

(** The key of a numbered frame, computed. *)
Example frame_key_of_numbered_frame :
  frame_key underscore_digits "A_0001.png" = "A" /\
  frame_key underscore_digits "A.png" = "A".
Proof. split; vm_compute; reflexivity. Qed.

Lemma execute_pool_without_work_witness :
  (get_card_instances (SpecCards popen_ok "enUS") BasicCard_class BasicCard_class ∅
     ["tokens"; "Cards"] example_config "/in" = Return [] /\
   execute_pool makedirs_ok copy2_ok (SpecCards popen_ok "enUS") BasicCard_class
     BasicCard_class ∅ ["tokens"; "Cards"] example_config "/in" "/out" None (mkWorld ∅ [])
   = (Return [], mkWorld ∅ [])) /\
  execute_pool makedirs_ok copy2_ok (SpecCards popen_ok "enUS") BasicCard_class
    BasicCard_class ∅ [] example_config "/in" "/out" (Some (-1)) (mkWorld ∅ [])
  = (Raise ValueError, mkWorld ∅ []) /\
  execute_pool makedirs_ok copy2_ok (SpecCards popen_ok "enUS") BasicCard_class
    BasicCard_class ∅ [] bare_config "/in" "/out" None (mkWorld ∅ [])
  = (Raise ValueError, mkWorld ∅ []).
Proof.
  split; [|split].
  - pose proof (proj1 (execute_pool_without_work (SpecCards popen_ok "enUS") BasicCard_class
                         BasicCard_class ∅ example_config "/in" makedirs_ok copy2_ok
                         ["tokens"; "Cards"] "/out" (mkWorld ∅ []))) as H.
    destruct H as [Hnone Hpool].
    + intros t Ht. apply elem_of_cons in Ht as [->|Ht]; [repeat split; discriminate|].
      apply elem_of_cons in Ht as [->|Ht]; [repeat split; discriminate|].
      by apply elem_of_nil in Ht.
    + split; [exact Hnone|]. apply Hpool. vm_compute. discriminate.
  - apply (proj1 (proj2 (execute_pool_without_work (SpecCards popen_ok "enUS") BasicCard_class
                           BasicCard_class ∅ example_config "/in" makedirs_ok copy2_ok
                           [] "/out" (mkWorld ∅ []))) [] (-1)).
    + reflexivity.
    + lia.
    + lia.
  - apply (proj2 (proj2 (execute_pool_without_work (SpecCards popen_ok "enUS") BasicCard_class
                           BasicCard_class ∅ bare_config "/in" makedirs_ok copy2_ok
                           [] "/out" (mkWorld ∅ []))) []
             ltac:(reflexivity) ltac:(vm_compute; reflexivity)).
Defined.
